(** * sfs-node: the save / dedup / cleanup pipeline and the id/url codec

    A shallow embedding of [src/index.ts] ([initFunctions]) and the
    properties of [idToUrl], [urlToId], [saveFile] and [deleteFileByHash].

    Conventions of the embedding.
    - A JavaScript string is a [string]; a value of type [any] is a [value];
      an [sfsFile] (an object with an index signature) is a finite map from
      property names to values, [gmap string value].
    - Numbers are modelled by the integers they denote ([VNum]); their
      conversion to text is the plain decimal one, which is what
      [Number::toString] gives for integers of magnitude below 10^21.
    - The storage root [publicFolder] is a flat directory: a finite map
      from entry names to file contents.  Every path the code touches is
      [path.join(publicFolder, entry)] with [entry] a plain file name, so
      a path is represented by its entry name.
    - Asynchronous functions run to completion one after the other: a
      promise that resolves is [Return], one that rejects is [Throw].
    - The injected callbacks ([getFileByHash], [createFile], [uid],
      [file.mv]) belong to the caller.  Within one call each store
      callback is invoked at most once, so it is given by its result on
      its argument; [mv] acts on the disk; every invocation is recorded
      in the trace of the run. *)

From Stdlib Require Import ZArith Strings.String Strings.Ascii Strings.Byte
  Numbers.DecimalString.
From stdpp Require Import gmap strings list fin_maps.

Local Open Scope string_scope.

(** ** JavaScript strings *)

Module JsString.

(** [s.endsWith(suffix)] *)
Fixpoint endsWith (s suffix : string) : bool :=
  if String.eqb s suffix then true
  else match s with
       | EmptyString => false
       | String _ s' => endsWith s' suffix
       end.

(** [s.replace(pattern, replacement)] for a string [pattern]: the first
    occurrence only; [s] itself when there is none.  The source passes
    the replacement [""] only, so the dollar patterns of a replacement
    are not modelled. *)
Fixpoint replace (s pattern replacement : string) : string :=
  if String.prefix pattern s
  then replacement +:+ String.substring (String.length pattern)
                         (String.length s - String.length pattern) s
  else match s with
       | EmptyString => s
       | String c s' => String c (replace s' pattern replacement)
       end.

(** [s.split(sep)] for a one-character separator. *)
Fixpoint split (sep : ascii) (s : string) : list string :=
  match s with
  | EmptyString => [EmptyString]
  | String c s' =>
      if Ascii.eqb c sep then EmptyString :: split sep s'
      else match split sep s' with
           | x :: xs => String c x :: xs
           | [] => [String c EmptyString]
           end
  end.

End JsString.

(** ** JavaScript values and objects *)

Inductive value : Type :=
| VUndef
| VNull
| VBool (b : bool)
| VNum (n : Z)
| VStr (s : string).

#[global] Instance value_eq_dec : EqDecision value.
Proof. solve_decision. Defined.

(** [ToBoolean] *)
Definition truthy (v : value) : bool :=
  match v with
  | VUndef | VNull => false
  | VBool b => b
  | VNum n => negb (Z.eqb n 0)
  | VStr s => negb (String.eqb s "")
  end.

Definition number_to_string (n : Z) : string :=
  NilZero.string_of_int (Z.to_int n).

(** [ToString], as applied by [+] with a string operand. *)
Definition to_string (v : value) : string :=
  match v with
  | VUndef => "undefined"
  | VNull => "null"
  | VBool true => "true"
  | VBool false => "false"
  | VNum n => number_to_string n
  | VStr s => s
  end.

(** [a || b] *)
Definition js_or (a b : value) : value := if truthy a then a else b.

(** An [sfsFileId] is [string | number]. *)
Definition is_sfsFileId (v : value) : Prop :=
  match v with VNum _ | VStr _ => True | _ => False end.

(** [o.k], [undefined] for a missing property. *)
Definition get (o : gmap string value) (k : string) : value :=
  default VUndef (o !! k).

Section Codec.

Variable mask : string.

(** [urlToId], index.ts 126-127 *)
Definition urlToId (url : string) : string :=
  if JsString.endsWith mask "/"
  then JsString.replace url mask ""
  else JsString.replace url (mask +:+ "/") "".

(** [idToUrl], index.ts 136-137 *)
Definition idToUrl (id : value) : string :=
  (if JsString.endsWith mask "/" then mask else mask +:+ "/") +:+ to_string id.

End Codec.

(** ** The world: storage root, id generator, clock *)

Inductive loggerLvl : Type := info | success | error.

(** A thrown [Error]: its [name] and its [message]. *)
Inductive exn : Type := JsError (name message : string).

(** [Error.prototype.toString] *)
Definition exn_to_string (e : exn) : string :=
  match e with
  | JsError n m =>
      if String.eqb n "" then m
      else if String.eqb m "" then n
      else n +:+ ": " +:+ m
  end.

(** [new Error(err)] *)
Definition new_Error (err : exn) : exn := JsError "Error" (exn_to_string err).

Definition ENOENT : exn := JsError "Error" "ENOENT: no such file or directory".
Definition TypeError : exn :=
  JsError "TypeError" "Cannot set properties of undefined".

Inductive outcome (A : Type) : Type :=
| Return (a : A)
| Throw (e : exn).
Arguments Return {A} a.
Arguments Throw {A} e.

Record world : Type := World {
  disk : gmap string (list Byte.byte);  (* entries of publicFolder *)
  uids : nat;                           (* calls of uid() so far *)
  clock : Z                             (* Date.now() *)
}.

(** What a call does to its collaborators, in order. *)
Inductive event : Type :=
| EvLog (message : string) (lvl : loggerLvl)
| EvUid
| EvGetFileByHash (hash : string)
| EvMv (entry : string)
| EvCreateFile (file : gmap string value)
| EvUnlink (entry : string).

#[global] Instance loggerLvl_eq_dec : EqDecision loggerLvl.
Proof. solve_decision. Defined.
#[global] Instance event_eq_dec : EqDecision event.
Proof. solve_decision. Defined.

Definition is_mv (e : event) : bool :=
  match e with EvMv _ => true | _ => false end.
Definition is_unlink (e : event) : bool :=
  match e with EvUnlink _ => true | _ => false end.
Definition is_createFile (e : event) : bool :=
  match e with EvCreateFile _ => true | _ => false end.

(** ** A state, exception and trace monad *)

Record run (A : Type) : Type := Run {
  outcome_of : outcome A;
  world_of : world;
  events_of : list event
}.
Arguments Run {A} _ _ _.
Arguments outcome_of {A} _.
Arguments world_of {A} _.
Arguments events_of {A} _.

Definition M (A : Type) : Type := world → run A.

Definition ret {A} (a : A) : M A := λ w, Run (Return a) w [].
Definition throw {A} (e : exn) : M A := λ w, Run (Throw e) w [].

Definition bind {A B} (m : M A) (k : A → M B) : M B := λ w,
  match m w with
  | Run (Return a) w1 evs1 =>
      match k a w1 with
      | Run o w2 evs2 => Run o w2 (evs1 ++ evs2)
      end
  | Run (Throw e) w1 evs1 => Run (Throw e) w1 evs1
  end.

(** [try { m } catch (e) { h e }] *)
Definition try_catch {A} (m : M A) (h : exn → M A) : M A := λ w,
  match m w with
  | Run (Return a) w1 evs1 => Run (Return a) w1 evs1
  | Run (Throw e) w1 evs1 =>
      match h e w1 with
      | Run o w2 evs2 => Run o w2 (evs1 ++ evs2)
      end
  end.

(** The monad notation of stdpp: [x ← m; k] and [m;; k]. *)
#[global] Instance M_ret : MRet M := @ret.
#[global] Instance M_bind : MBind M := λ A B k m, bind m k.

Definition lift {A} (o : outcome A) : M A := λ w, Run o w [].

(** *** The file system calls *)

Definition statSync_size (entry : string) : M Z := λ w,
  match disk w !! entry with
  | Some b => Run (Return (Z.of_nat (length b))) w []
  | None => Run (Throw ENOENT) w []
  end.

Definition existsSync (entry : string) : M bool := λ w,
  Run (Return (bool_decide (is_Some (disk w !! entry)))) w [].

Definition unlinkSync (entry : string) : M unit := λ w,
  match disk w !! entry with
  | Some _ =>
      Run (Return tt) (World (delete entry (disk w)) (uids w) (clock w))
        [EvUnlink entry]
  | None => Run (Throw ENOENT) w [EvUnlink entry]
  end.

Definition readdirSync : M (list string) := λ w,
  Run (Return (map_to_list (disk w)).*1) w [].

Definition Date_now : M Z := λ w, Run (Return (clock w)) w [].

(** ** The upload and the configuration *)

(** [UploadedFile]: the fields the code reads.  [mv entry] moves the
    upload into the storage root; it is the caller's, so all that is known
    of it is that it acts on the disk and resolves or rejects. *)
Record UploadedFile : Type := {
  name : string;
  mv : string → gmap string (list Byte.byte)
       → outcome unit * gmap string (list Byte.byte);
  data : list Byte.byte
}.

Record sfsConfig : Type := {
  publicFolder : string;
  mask : string;
  getFileById : value → outcome (gmap string value);
  getFileByHash : string → outcome (option (gmap string value));
  createFile : gmap string value → outcome (gmap string value);
  logger : bool;                 (* is a logger configured? *)
  uid : nat → value;             (* the n-th id the generator hands out *)
  allowDuplicates : bool
}.

(** The [options] argument of [saveFile]. *)
Record saveOptions : Type := {
  filePath : option string;
  id : option value;
  additionalData : option (gmap string value)
}.

(** ** [initFunctions] *)

Section InitFunctions.

(** The platform and the libraries the module imports. *)
Variable decodeURI : string → outcome string.
Variable sha256_hex : list Byte.byte → string.  (* createHash ... digest *)
Variable path_extname : string → string.
Variable fileTypeFromBuffer : list Byte.byte → option string.
Variable dotExtensionToCategotry : string → value.

Variable cfg : sfsConfig.

(** [logger && logger(message, lvl)] *)
Definition log (message : string) (lvl : loggerLvl) : M unit := λ w,
  Run (Return tt) w (if logger cfg then [EvLog message lvl] else []).

Definition call_uid : M value := λ w,
  Run (Return (uid cfg (uids w))) (World (disk w) (S (uids w)) (clock w))
    [EvUid].

Definition call_getFileByHash (hash : string)
  : M (option (gmap string value)) := λ w,
  Run (getFileByHash cfg hash) w [EvGetFileByHash hash].

Definition call_createFile (file : gmap string value)
  : M (gmap string value) := λ w,
  Run (createFile cfg file) w [EvCreateFile file].

Definition call_mv (file : UploadedFile) (entry : string) : M unit := λ w,
  match mv file entry (disk w) with
  | (o, d) => Run o (World d (uids w) (clock w)) [EvMv entry]
  end.

(** [options?.filePath || "/"], index.ts 193 *)
Definition filePath_or_root (options : option saveOptions) : string :=
  match options ≫= filePath with
  | Some p => if truthy (VStr p) then p else "/"
  | None => "/"
  end.

(** [options?.id || uid()], index.ts 194 *)
Definition id_or_uid (options : option saveOptions) : M value :=
  match options ≫= id with
  | Some v => if truthy v then mret v else call_uid
  | None => call_uid
  end.

(** The extension, index.ts 200-209 *)
Definition extension_of (name : string) (data : list Byte.byte) : string :=
  let extensionFromName := path_extname name in
  if truthy (VStr extensionFromName) then extensionFromName
  else match fileTypeFromBuffer data with
       | Some ext => "." +:+ ext
       | None => ""
       end.

(** The object literal [fileData], index.ts 228-239: the computed
    properties first, then the spread of [options?.additionalData]. *)
Definition fileData (id : value) (name extension hash : string)
    (size type : value) (now : Z) (filePath : string)
    (options : option saveOptions) : gmap string value :=
  default ∅ (options ≫= additionalData)
  ∪ list_to_map
      [("id", id); ("name", VStr name); ("extension", VStr extension);
       ("hash", VStr hash); ("size", size); ("type", type);
       ("last_modified", VNum now); ("path", VStr filePath);
       ("publishedAt", VNum now)].

(** [saveFile], index.ts 183-269 *)
Definition saveFile (file : UploadedFile) (options : option saveOptions)
  : M (option (gmap string value)) :=
  try_catch
    (let filePath := filePath_or_root options in
     id ← id_or_uid options;
     name ← lift (decodeURI (name file));
     let hash := sha256_hex (data file) in
     let extension := extension_of name (data file) in
     let constPath := hash +:+ extension in
     fileInfo ← call_getFileByHash hash;
     match fileInfo with
     | Some _ => log "SFS: File already uploaded" info
     | None => log "SFS: Saving file" success;; call_mv file constPath
     end;;
     if match fileInfo with
        | None => true
        | Some fi =>
            negb (bool_decide (VStr filePath = get fi "path"))
            || allowDuplicates cfg
        end
     then
       size ← (let s := default VUndef (flip get "size" <$> fileInfo) in
               if truthy s then mret s
               else n ← statSync_size constPath; mret (VNum n));
       let type := js_or (default VUndef (flip get "type" <$> fileInfo))
                     (dotExtensionToCategotry extension) in
       now ← Date_now;
       let fileData :=
         fileData id name extension hash size type now filePath options in
       try_catch
         (mutationResult ← call_createFile fileData;
          mret (Some (<["url" :=
                         VStr (idToUrl (mask cfg) (get mutationResult "id"))]>
                        mutationResult)))
         (λ createError,
            match fileInfo return M unit with
            | None =>
                present ← existsSync constPath;
                if (present : bool)
                then unlinkSync constPath;;
                     log "SFS: Cleaning up orphaned file after database error"
                       info
                else ret tt
            | Some _ => ret tt
            end;;
            mret None)
     else
       log "File already exists at this location" error;;
       match fileInfo with
       | Some fi =>
           mret (Some (<["url" := VStr (idToUrl (mask cfg) (get fi "id"))]>
                         fi))
       | None => throw TypeError
       end)
    (λ err, log "Upload error" error;; throw (new_Error err)).

(** [deleteFileByHash], index.ts 270-282 *)
Definition deleteFileByHash (hash : string) : M unit :=
  try_catch
    (files ← readdirSync;
     let fileToDelete :=
       List.find
         (λ f, bool_decide (head (JsString.split "." f) = Some hash))
         files in
     let notFound :=
       JsError "Error"
         ("File with hash " +:+ hash +:+ " not found in "
          +:+ publicFolder cfg) in
     match fileToDelete with
     | Some f => if truthy (VStr f) then unlinkSync f else throw notFound
     | None => throw notFound
     end)
    (λ err, throw (new_Error err)).

End InitFunctions.

Arguments fileData : simpl never.
Arguments idToUrl : simpl never.
Arguments get : simpl never.
Arguments extension_of : simpl never.
Arguments filePath_or_root : simpl never.
Arguments new_Error : simpl never.

(** [options?.additionalData?.[k]], [None] when there is no such own
    property. *)
Definition additional (options : option saveOptions) (k : string)
  : option value :=
  match options ≫= additionalData with
  | Some a => a !! k
  | None => None
  end.

(** The entries of the storage root that hold the content of [hash]: the
    files named [hash] followed by an extension. *)
Definition files_of_hash (hash : string) (d : gmap string (list Byte.byte))
  : list string :=
  filter (λ f, head (JsString.split "." f) = Some hash) (map_to_list d).*1.

(** The round trip of C4 read literally: the id comes back as itself, a
    number as a number. *)
Definition url_roundtrip (mask : string) (I : value) : Prop :=
  VStr (urlToId mask (idToUrl mask I)) = I.

(** [s.includes(t)] *)
Fixpoint includes (s t : string) : bool :=
  if String.prefix t s then true
  else match s with
       | EmptyString => false
       | String _ s' => includes s' t
       end.

(** ** A concrete platform and store, for running the code *)

Module Sample.

(** [decodeURI] on names without percent escapes. *)
Definition decodeURI (s : string) : outcome string := Return s.

(** SHA-256 of the empty buffer; other buffers get a short stand-in. *)
Definition sha256_hex (b : list Byte.byte) : string :=
  match b with
  | [] => "e3b0c44298fc1c149afbf4c8996fb92427ae41e4649b934ca495991b7852b855"
  | _ => "abc123"
  end.

Fixpoint from_last_dot (s : string) : option string :=
  match s with
  | EmptyString => None
  | String c s' =>
      match from_last_dot s' with
      | Some x => Some x
      | None => if Ascii.eqb c "." then Some s else None
      end
  end.

(** [path.extname] on a name without directory separators. *)
Definition path_extname (s : string) : string :=
  match s with
  | EmptyString => ""
  | String _ s' => default "" (from_last_dot s')
  end.

Definition fileTypeFromBuffer (b : list Byte.byte) : option string := None.

Definition dotExtensionToCategotry (ext : string) : value :=
  if String.eqb ext ".pdf" then VStr "document"
  else if String.eqb ext ".png" then VStr "image"
  else VStr "other".

(** [file.mv] of express-fileupload: writes the buffer at the path. *)
Definition mv_data (b : list Byte.byte) (entry : string)
    (d : gmap string (list Byte.byte))
  : outcome unit * gmap string (list Byte.byte) :=
  (Return tt, <[entry := b]> d).

Definition upload (n : string) (b : list Byte.byte) : UploadedFile :=
  {| name := n; mv := mv_data b; data := b |}.

Definition nth_uid (n : nat) : value :=
  VStr ("id-" +:+ number_to_string (Z.of_nat n)).

(** A store that knows no hash. *)
Definition no_record (h : string) : outcome (option (gmap string value)) :=
  Return None.

(** A store that holds [r] under every hash. *)
Definition has_record (r : gmap string value) (h : string)
  : outcome (option (gmap string value)) := Return (Some r).

Definition createFile_ok (f : gmap string value)
  : outcome (gmap string value) := Return f.

Definition createFile_fails (f : gmap string value)
  : outcome (gmap string value) :=
  Throw (JsError "Error" "duplicate key").

Definition config (byHash : string → outcome (option (gmap string value)))
    (create : gmap string value → outcome (gmap string value))
    (dups : bool) : sfsConfig :=
  {| publicFolder := "./uploads";
     mask := "https://cdn.x/files";
     getFileById := λ _, Throw (JsError "Error" "no such id");
     getFileByHash := byHash;
     createFile := create;
     logger := true;
     uid := nth_uid;
     allowDuplicates := dups |}.

Definition saveFile := saveFile decodeURI sha256_hex path_extname
                         fileTypeFromBuffer dotExtensionToCategotry.

Definition world0 : world := World ∅ 0 1700000000000.

(** The record of an empty file first uploaded as [a.txt] at ["/"]. *)
Definition empty_txt : gmap string value :=
  list_to_map
    [("id", VStr "id-0"); ("name", VStr "a.txt"); ("extension", VStr ".txt");
     ("hash", VStr (sha256_hex [])); ("size", VNum 0);
     ("type", VStr "other"); ("last_modified", VNum 1700000000000);
     ("path", VStr "/"); ("publishedAt", VNum 1700000000000)].

(** The record of [report.pdf], seven bytes, at ["/"]. *)
Definition report_pdf : gmap string value :=
  list_to_map
    [("id", VNum 7); ("name", VStr "report.pdf"); ("extension", VStr ".pdf");
     ("hash", VStr "abc123"); ("size", VNum 7);
     ("type", VStr "document"); ("last_modified", VNum 1700000000000);
     ("path", VStr "/"); ("publishedAt", VNum 1700000000000)].

Definition seven_bytes : list Byte.byte :=
  [x25; x50; x44; x46; x2d; x31; x0a]%byte.

(** A storage root that holds [report.pdf] under its hash. *)
Definition world1 : world :=
  World {[ "abc123.pdf" := seven_bytes ]} 1 1700000000000.

(** A storage root that holds the empty file under its hash, as [.txt]. *)
Definition world_empty_txt : world :=
  World {[ sha256_hex [] +:+ ".txt" := [] ]} 1 1700000000000.

Definition options_docs : option saveOptions :=
  Some {| filePath := Some "/docs"; id := None; additionalData := None |}.

Definition options_size99 : option saveOptions :=
  Some {| filePath := None; id := None;
          additionalData := Some {[ "size" := VNum 99 ]} |}.

Definition options_falsy : saveOptions :=
  {| filePath := Some ""; id := Some (VNum 0); additionalData := None |}.

End Sample.

(** ** [resolveFilePath] and [deleteFileById] *)

(** [a + b] when it is a string, that is when one of the operands is a
    string; [None] when it is a number. *)
Definition js_plus_string (a b : value) : option string :=
  match a, b with
  | VStr _, _ | _, VStr _ => Some (to_string a +:+ to_string b)
  | _, _ => None
  end.

(** What [resolveFilePath] resolves with.  [filePath] stands for
    [path.join(publicFolder, filePath)], as every path does. *)
Module Resolved.
Record t : Type := { filePath : string; fileName : value }.
End Resolved.

(** [path.join] given an argument that is not a string. *)
Definition ERR_INVALID_ARG_TYPE : exn :=
  JsError "TypeError" "The path argument must be of type string".

Section PathFunctions.

Variable cfg : sfsConfig.

(** [resolveFilePath], index.ts 149-158.  The logger receives the error
    caught; the trace keeps its text. *)
Definition resolveFilePath (id : value) : M (option Resolved.t) :=
  try_catch
    (fileInfo ← lift (getFileById cfg id);
     let hash := get fileInfo "hash" in
     let extension := get fileInfo "extension" in
     let name := get fileInfo "name" in
     match js_plus_string hash extension with
     | Some filePath =>
         mret (Some {| Resolved.filePath := filePath;
                       Resolved.fileName := name |})
     | None => throw ERR_INVALID_ARG_TYPE
     end)
    (λ err, log cfg (exn_to_string err) error;; mret None).

(** [deleteFileById], index.ts 283-294 *)
Definition deleteFileById (id : value) : M unit :=
  try_catch
    (result ← resolveFilePath id;
     match result with
     | None =>
         throw (JsError "Error"
                  ("File with id " +:+ to_string id +:+ " not found"))
     | Some r => unlinkSync (Resolved.filePath r)
     end)
    (λ err, throw (new_Error err)).

End PathFunctions.

(** A store whose metadata records are kept in a list: found by id, found
    by hash; [createFile] hands back the record it is given. *)
Module Store.

Definition by_id (records : list (gmap string value)) (id : value)
  : outcome (gmap string value) :=
  match List.find (λ r, bool_decide (get r "id" = id)) records with
  | Some r => Return r
  | None => Throw (JsError "Error" "no such id")
  end.

Definition by_hash (records : list (gmap string value)) (hash : string)
  : outcome (option (gmap string value)) :=
  Return (List.find (λ r, bool_decide (get r "hash" = VStr hash)) records).

Definition config (records : list (gmap string value)) : sfsConfig :=
  {| publicFolder := "./uploads";
     mask := "https://cdn.x/files";
     getFileById := by_id records;
     getFileByHash := by_hash records;
     createFile := Return;
     logger := true;
     uid := Sample.nth_uid;
     allowDuplicates := false |}.

(** The store that holds the record of [report.pdf]. *)
Definition with_report : sfsConfig := config [Sample.report_pdf].

End Store.

(** Collaborators that fail. *)
Module Faulty.

(** [decodeURI] on names with no valid percent escape: a percent sign
    makes the name malformed. *)
Definition decodeURI (s : string) : outcome string :=
  if includes s "%" then Throw (JsError "URIError" "URI malformed")
  else Return s.

Definition lookup_throws (h : string) : outcome (option (gmap string value)) :=
  Throw (JsError "Error" "store unavailable").

(** An upload whose [mv] rejects and writes nothing. *)
Definition upload (n : string) (b : list Byte.byte) : UploadedFile :=
  {| name := n;
     mv := λ _ d, (Throw (JsError "Error" "EACCES: permission denied"), d);
     data := b |}.

(** [saveFile] on the platform whose [decodeURI] refuses percent signs. *)
Definition saveFile := saveFile decodeURI Sample.sha256_hex
                         Sample.path_extname Sample.fileTypeFromBuffer
                         Sample.dotExtensionToCategotry.

End Faulty.

(** * Properties *)

(** ** Strings *)

Section StringFacts.

Lemma append_nil (s : string) : "" +:+ s = s.
Proof. reflexivity. Qed.

Lemma append_cons (c : ascii) (a b : string) :
  String c a +:+ b = String c (a +:+ b).
Proof. reflexivity. Qed.

Lemma append_assoc (a b c : string) : (a +:+ b) +:+ c = a +:+ b +:+ c.
Proof.
  induction a as [|x a IH]; [done|].
  rewrite !append_cons. by f_equal.
Qed.

Lemma replace_unfold (s p r : string) :
  JsString.replace s p r =
  if String.prefix p s
  then r +:+ String.substring (String.length p)
               (String.length s - String.length p) s
  else match s with
       | EmptyString => s
       | String c s' => String c (JsString.replace s' p r)
       end.
Proof. by destruct s. Qed.

Lemma prefix_app (p s : string) : String.prefix p (p +:+ s) = true.
Proof.
  induction p as [|c p IH].
  - by destruct s.
  - rewrite append_cons. simpl. by destruct (ascii_dec c c).
Qed.

Lemma substring_all (s : string) :
  String.substring 0 (String.length s) s = s.
Proof. induction s as [|c s IH]; simpl; [done | by rewrite IH]. Qed.

Lemma substring_app_drop (p s : string) :
  String.substring (String.length p)
    (String.length (p +:+ s) - String.length p) (p +:+ s) = s.
Proof.
  induction p as [|c p IH].
  - rewrite append_nil. simpl. rewrite Nat.sub_0_r. apply substring_all.
  - rewrite append_cons. simpl. exact IH.
Qed.

(** Removing the first occurrence of [p] from [p + s] leaves [s]: the
    first occurrence is the one at index 0. *)
Lemma replace_prefix (p s : string) : JsString.replace (p +:+ s) p "" = s.
Proof.
  rewrite replace_unfold, prefix_app, append_nil. apply substring_app_drop.
Qed.

Lemma endsWith_unfold (s suffix : string) :
  JsString.endsWith s suffix =
  if String.eqb s suffix then true
  else match s with
       | EmptyString => false
       | String _ s' => JsString.endsWith s' suffix
       end.
Proof. by destruct s. Qed.

Lemma endsWith_app (m suffix : string) :
  JsString.endsWith (m +:+ suffix) suffix = true.
Proof.
  induction m as [|c m IH].
  - rewrite append_nil, endsWith_unfold. by rewrite String.eqb_refl.
  - rewrite append_cons, endsWith_unfold. by destruct (String.eqb _ _).
Qed.

Lemma includes_unfold (s t : string) :
  includes s t =
  if String.prefix t s then true
  else match s with
       | EmptyString => false
       | String _ s' => includes s' t
       end.
Proof. by destruct s. Qed.

(** Nothing is replaced in a string where the pattern does not occur. *)
Lemma replace_no_occurrence (s p r : string) :
  includes s p = false → JsString.replace s p r = s.
Proof.
  induction s as [|c s IH]; rewrite includes_unfold, replace_unfold;
    destruct (String.prefix p _); try done.
  intros H. by rewrite IH.
Qed.

Lemma includes_dot_cons (c : ascii) (x : string) :
  includes (String c x) "." = Ascii.eqb c "." || includes x ".".
Proof.
  rewrite includes_unfold.
  change (String.prefix "." (String c x))
    with (if ascii_dec "." c then String.prefix "" x else false).
  destruct (ascii_dec "." c) as [<-|Hne].
  - rewrite Ascii.eqb_refl. by destruct x.
  - assert (Ascii.eqb c "." = false) as ->; [|done].
    apply Ascii.eqb_neq. congruence.
Qed.

(** The part of a name before its first dot has no dot. *)
Lemma split_head_no_dot (f h : string) :
  head (JsString.split "." f) = Some h → includes h "." = false.
Proof.
  revert h. induction f as [|c f IH]; intros h.
  - by intros [= <-].
  - cbn [JsString.split].
    destruct (Ascii.eqb c ".") eqn:Ec; [by intros [= <-]|].
    destruct (JsString.split "." f) as [|x xs]; intros [= <-];
      rewrite includes_dot_cons, Ec; [done|].
    by apply IH.
Qed.

End StringFacts.

(** ** The id/url codec *)

(** C4 (as stated) fails for a numeric id: [urlToId] returns a string, so
    the id 7 comes back as the text ["7"], whatever the mask; here the mask
    does not contain the id. *)
Lemma url_roundtrip_number_fails :
  is_sfsFileId (VNum 7)
  ∧ includes "https://cdn.x/files" (to_string (VNum 7)) = false
  ∧ urlToId "https://cdn.x/files" (idToUrl "https://cdn.x/files" (VNum 7))
    = "7"
  ∧ ¬ url_roundtrip "https://cdn.x/files" (VNum 7).
Proof.
  split_and!; [exact I | reflexivity | reflexivity |].
  unfold url_roundtrip. intros H. discriminate H.
Qed.

(** C4 (amended): for every id and every mask, with or without a trailing
    slash, [urlToId (idToUrl I)] is the text of [I]; it is [I] itself when
    [I] is a string.  No condition on the mask is needed. *)
Theorem urlToId_idToUrl (mask : string) (I : value) :
  urlToId mask (idToUrl mask I) = to_string I
  ∧ ∀ s, I = VStr s → url_roundtrip mask I.
Proof.
  assert (urlToId mask (idToUrl mask I) = to_string I) as E.
  { unfold urlToId, idToUrl.
    destruct (JsString.endsWith mask "/"); apply replace_prefix. }
  split; [exact E|]. intros s ->. unfold url_roundtrip. by rewrite E.
Qed.

Lemma urlToId_idToUrl_witness :
  urlToId "https://cdn.x/files/" (idToUrl "https://cdn.x/files/" (VStr "a1"))
  = "a1"
  ∧ url_roundtrip "https://cdn.x/files/" (VStr "a1").
Proof.
  destruct (urlToId_idToUrl "https://cdn.x/files/" (VStr "a1")) as [Htext Hid].
  split; [exact Htext | exact (Hid "a1" eq_refl)].
Defined.

(** C8: for a mask [m] that does not end in the separator, [idToUrl] under
    [m] and under [m + "/"] both give [m], one ["/"], then the id. *)
Theorem idToUrl_one_separator (m : string) (I : value) :
  JsString.endsWith m "/" = false →
  idToUrl m I = m +:+ "/" +:+ to_string I
  ∧ idToUrl (m +:+ "/") I = m +:+ "/" +:+ to_string I.
Proof.
  intros Hm. unfold idToUrl. rewrite Hm, endsWith_app.
  split; apply append_assoc.
Qed.

Lemma idToUrl_one_separator_witness :
  JsString.endsWith "https://cdn.x/files" "/" = false
  ∧ idToUrl "https://cdn.x/files" (VStr "a1")
    = "https://cdn.x/files" +:+ "/" +:+ to_string (VStr "a1")
  ∧ idToUrl ("https://cdn.x/files" +:+ "/") (VStr "a1")
    = "https://cdn.x/files" +:+ "/" +:+ to_string (VStr "a1").
Proof.
  split; [reflexivity|].
  apply (idToUrl_one_separator "https://cdn.x/files" (VStr "a1")).
  reflexivity.
Defined.

(** X1: a url in which the prefix does not occur is returned as it is:
    [urlToId] does not check that its argument is one of this store. *)
Theorem urlToId_without_prefix (mask url : string) :
  includes url (if JsString.endsWith mask "/" then mask else mask +:+ "/")
  = false →
  urlToId mask url = url.
Proof.
  unfold urlToId. destruct (JsString.endsWith mask "/");
    apply replace_no_occurrence.
Qed.

Lemma urlToId_without_prefix_witness :
  includes "https://other.org/a1"
    (if JsString.endsWith "https://cdn.x/files" "/"
     then "https://cdn.x/files" else "https://cdn.x/files" +:+ "/") = false
  ∧ urlToId "https://cdn.x/files" "https://other.org/a1"
    = "https://other.org/a1".
Proof.
  split; [reflexivity|].
  apply (urlToId_without_prefix "https://cdn.x/files" "https://other.org/a1").
  reflexivity.
Defined.

(** X2: two ids get the same url exactly when they have the same text: string
    ids never collide, a number collides with the string of its digits. *)
Theorem idToUrl_same_url (mask : string) (a b : value) :
  (idToUrl mask a = idToUrl mask b ↔ to_string a = to_string b)
  ∧ (∀ s t, idToUrl mask (VStr s) = idToUrl mask (VStr t) → s = t)
  ∧ ∀ n, idToUrl mask (VNum n) = idToUrl mask (VStr (number_to_string n)).
Proof.
  assert (∀ x y, idToUrl mask x = idToUrl mask y → to_string x = to_string y)
    as Hinj.
  { intros x y. unfold idToUrl. apply String.app_inj. }
  split_and!.
  - split; [apply Hinj|]. unfold idToUrl. by intros ->.
  - intros s t H. exact (Hinj (VStr s) (VStr t) H).
  - reflexivity.
Qed.

(** X3: [urlToId] reads a mask with and without its trailing slash alike. *)
Theorem urlToId_trailing_slash (m url : string) :
  JsString.endsWith m "/" = false →
  urlToId (m +:+ "/") url = urlToId m url.
Proof. intros Hm. unfold urlToId. by rewrite Hm, endsWith_app. Qed.

Lemma urlToId_trailing_slash_witness :
  JsString.endsWith "https://cdn.x/files" "/" = false
  ∧ urlToId ("https://cdn.x/files" +:+ "/") "https://cdn.x/files/a1"
    = urlToId "https://cdn.x/files" "https://cdn.x/files/a1".
Proof.
  split; [reflexivity|].
  apply (urlToId_trailing_slash "https://cdn.x/files" "https://cdn.x/files/a1").
  reflexivity.
Defined.

(** ** The monad *)

(** A guarded sequence starts with the events of its first step. *)
Lemma try_catch_bind_events {A B} (m : M A) (k : A → M B) (h : exn → M B)
    (w : world) (a : A) (w1 : world) (evs1 : list event) :
  m w = Run (Return a) w1 evs1 →
  ∃ rest, events_of (try_catch (m ≫= k) h w) = (evs1 ++ rest)%list.
Proof.
  intros Hm. unfold try_catch, mbind, M_bind, bind. rewrite Hm.
  destruct (k a w1) as [[b|e] w2 evs2]; simpl; [by eexists|].
  destruct (h e w2) as [o w3 evs3]; simpl.
  eexists. by rewrite <- (assoc_L (++)).
Qed.

(** ** The record literal *)

Section FileData.

Variables (id : value) (name extension hash : string) (size type : value)
  (now : Z) (filePath : string) (options : option saveOptions).

(** A property of [additionalData] is a property of the record: the
    spread comes last. *)
Lemma fileData_additional (k : string) (v : value) :
  additional options k = Some v →
  fileData id name extension hash size type now filePath options !! k
  = Some v.
Proof.
  unfold additional, fileData. intros H.
  destruct (options ≫= additionalData) as [a|]; [|done].
  simpl in *. by apply lookup_union_Some_l.
Qed.

Lemma fileData_core (k : string) :
  additional options k = None →
  fileData id name extension hash size type now filePath options !! k
  = (list_to_map
       [("id", id); ("name", VStr name); ("extension", VStr extension);
        ("hash", VStr hash); ("size", size); ("type", type);
        ("last_modified", VNum now); ("path", VStr filePath);
        ("publishedAt", VNum now)] : gmap string value) !! k.
Proof.
  unfold additional, fileData. intros H.
  destruct (options ≫= additionalData) as [a|]; simpl in *.
  - by apply lookup_union_r.
  - by rewrite (left_id_L ∅ (∪)).
Qed.

Lemma fileData_id :
  additional options "id" = None →
  fileData id name extension hash size type now filePath options !! "id"
  = Some id.
Proof. intros H. by rewrite fileData_core. Qed.

Lemma fileData_path :
  additional options "path" = None →
  fileData id name extension hash size type now filePath options !! "path"
  = Some (VStr filePath).
Proof. intros H. by rewrite fileData_core. Qed.

Lemma fileData_size :
  additional options "size" = None →
  fileData id name extension hash size type now filePath options !! "size"
  = Some size.
Proof. intros H. by rewrite fileData_core. Qed.

Lemma fileData_type :
  additional options "type" = None →
  fileData id name extension hash size type now filePath options !! "type"
  = Some type.
Proof. intros H. by rewrite fileData_core. Qed.

End FileData.

(** ** [resolveFilePath] and [deleteFileById] *)

Section PathFacts.

Variable cfg : sfsConfig.

(** The runs of [resolveFilePath]. *)
Lemma resolveFilePath_lookup_throws (id : value) (w : world) (e : exn) :
  getFileById cfg id = Throw e →
  resolveFilePath cfg id w
  = Run (Return None) w
      (if logger cfg then [EvLog (exn_to_string e) error] else []).
Proof.
  intros He.
  unfold resolveFilePath, try_catch, mbind, M_bind, bind, lift, log, mret,
    M_ret, ret. rewrite He. simpl. by destruct (logger cfg).
Qed.

Lemma resolveFilePath_found (id : value) (w : world)
    (fi : gmap string value) (p : string) :
  getFileById cfg id = Return fi →
  js_plus_string (get fi "hash") (get fi "extension") = Some p →
  resolveFilePath cfg id w
  = Run (Return (Some {| Resolved.filePath := p;
                         Resolved.fileName := get fi "name" |})) w [].
Proof.
  intros Hfi Hp.
  unfold resolveFilePath, try_catch, mbind, M_bind, bind, lift, log, mret,
    M_ret, ret. rewrite Hfi. simpl. by rewrite Hp.
Qed.

Lemma resolveFilePath_not_a_path (id : value) (w : world)
    (fi : gmap string value) :
  getFileById cfg id = Return fi →
  js_plus_string (get fi "hash") (get fi "extension") = None →
  resolveFilePath cfg id w
  = Run (Return None) w
      (if logger cfg
       then [EvLog (exn_to_string ERR_INVALID_ARG_TYPE) error] else []).
Proof.
  intros Hfi Hp.
  unfold resolveFilePath, try_catch, mbind, M_bind, bind, lift, log, mret,
    M_ret, ret, throw. rewrite Hfi. simpl. rewrite Hp. simpl.
  by destruct (logger cfg).
Qed.

(** X7: [resolveFilePath] never rejects and changes nothing: a lookup that
    throws is logged at level [error] and the call resolves with
    [undefined]; so does a record whose [hash + extension] is not a
    string. *)
Theorem resolveFilePath_swallows_errors (id : value) (w : world) :
  (∃ r, outcome_of (resolveFilePath cfg id w) = Return r)
  ∧ world_of (resolveFilePath cfg id w) = w
  ∧ Forall (λ ev, ∃ m, ev = EvLog m error)
      (events_of (resolveFilePath cfg id w))
  ∧ ∀ e, getFileById cfg id = Throw e →
         outcome_of (resolveFilePath cfg id w) = Return None
         ∧ (logger cfg = true →
            events_of (resolveFilePath cfg id w)
            = [EvLog (exn_to_string e) error]).
Proof.
  destruct (getFileById cfg id) as [fi|e] eqn:Hget.
  - destruct (js_plus_string (get fi "hash") (get fi "extension"))
      as [p|] eqn:Hp.
    + rewrite (resolveFilePath_found id w fi p Hget Hp). simpl.
      split_and!; [by eexists | done | constructor | done].
    + rewrite (resolveFilePath_not_a_path id w fi Hget Hp). simpl.
      split_and!; [by eexists | done | | done].
      destruct (logger cfg); repeat econstructor.
  - rewrite (resolveFilePath_lookup_throws id w e Hget). simpl.
    split_and!; [by eexists | done | |].
    + destruct (logger cfg); repeat econstructor.
    + intros e' [= <-]. split; [done|]. by intros ->.
Qed.

(** The runs of [deleteFileById]. *)
Lemma deleteFileById_found (id : value) (w : world)
    (fi : gmap string value) (p : string) :
  getFileById cfg id = Return fi →
  js_plus_string (get fi "hash") (get fi "extension") = Some p →
  deleteFileById cfg id w
  = match disk w !! p with
    | Some _ =>
        Run (Return tt) (World (delete p (disk w)) (uids w) (clock w))
          [EvUnlink p]
    | None => Run (Throw (new_Error ENOENT)) w [EvUnlink p]
    end.
Proof.
  intros Hfi Hp.
  unfold deleteFileById, try_catch, mbind, M_bind, bind.
  rewrite (resolveFilePath_found id w fi p Hfi Hp). simpl.
  unfold unlinkSync, throw. by destruct (disk w !! p).
Qed.


(** X9: [deleteFileById] with an id the store does not know: the error of
    the lookup is logged and lost, the call rejects with its own "not
    found" error, and nothing is unlinked.  The same happens with a record
    that has neither a string [hash] nor a string [extension]. *)
Theorem deleteFileById_not_found (id : value) (w : world) :
  (∃ e, getFileById cfg id = Throw e)
  ∨ (∃ fi, getFileById cfg id = Return fi
           ∧ js_plus_string (get fi "hash") (get fi "extension") = None) →
  outcome_of (deleteFileById cfg id w)
  = Throw (new_Error
             (JsError "Error"
                ("File with id " +:+ to_string id +:+ " not found")))
  ∧ world_of (deleteFileById cfg id w) = w
  ∧ Forall (λ ev, is_unlink ev = false) (events_of (deleteFileById cfg id w)).
Proof.
  intros [[e He] | (fi & Hfi & Hp)];
    unfold deleteFileById, try_catch, mbind, M_bind, bind;
    [rewrite (resolveFilePath_lookup_throws id w e He)
    |rewrite (resolveFilePath_not_a_path id w fi Hfi Hp)];
    simpl; (split_and!; [done | done |]);
    destruct (logger cfg); repeat constructor.
Qed.

End PathFacts.

(** ** [saveFile] *)

Section SaveFileFacts.

Variable decodeURI : string → outcome string.
Variable sha256_hex : list Byte.byte → string.
Variable path_extname : string → string.
Variable fileTypeFromBuffer : list Byte.byte → option string.
Variable dotExtensionToCategotry : string → value.
Variable cfg : sfsConfig.

(** Symbolic execution: unfold the monad, split on every test the code
    makes. *)
Ltac unfold_saveFile := unfold saveFile.
Ltac run_unfold :=
  unfold saveFile, try_catch, mbind, M_bind, bind, mret, M_ret,
    ret, throw, lift, log, call_uid, call_getFileByHash, call_createFile,
    call_mv, statSync_size, existsSync, unlinkSync, Date_now, id_or_uid
    in *.
Ltac run_cases :=
  run_unfold; simpl in *;
  repeat (case_match; run_unfold; simpl in *; simplify_eq).

Ltac merge_eqs :=
  simpl in *; simplify_eq;
  repeat match goal with
         | H1 : ?x = _, H2 : ?x = _ |- _ => rewrite H1 in H2; simplify_eq
         end.

Local Abbreviation saveFile :=
  (saveFile decodeURI sha256_hex path_extname fileTypeFromBuffer
     dotExtensionToCategotry cfg).
Local Abbreviation extension_of :=
  (extension_of path_extname fileTypeFromBuffer).

(** A call that finds a record for the hash leaves the storage root as
    it was: it neither moves the upload in nor unlinks anything. *)
Lemma saveFile_existing_frame file options w fi :
  getFileByHash cfg (sha256_hex (data file)) = Return (Some fi) →
  disk (world_of (saveFile file options w)) = disk w
  ∧ Forall (λ e, is_mv e = false ∧ is_unlink e = false)
      (events_of (saveFile file options w)).
Proof.
  intros Hfi. run_unfold. simpl.
  repeat (case_match; run_unfold; simpl in *; simplify_eq;
          try (rewrite Hfi in *; simplify_eq)).
  all: split; [done | repeat constructor].
Qed.

(** What [createFile] is called with: the literal of index.ts 228-239,
    built from the id of line 194, the decoded name, and the size and
    type of lines 225-226. *)
Lemma saveFile_createFile_inv file options w r :
  EvCreateFile r ∈ events_of (saveFile file options w) →
  ∃ v w1 evs nm fileInfo size,
    id_or_uid cfg options w = Run (Return v) w1 evs
    ∧ decodeURI (name file) = Return nm
    ∧ getFileByHash cfg (sha256_hex (data file)) = Return fileInfo
    ∧ r = fileData v nm (extension_of nm (data file))
            (sha256_hex (data file)) size
            (js_or (default VUndef (flip get "type" <$> fileInfo))
               (dotExtensionToCategotry (extension_of nm (data file))))
            (clock w) (filePath_or_root options) options
    ∧ (truthy (default VUndef (flip get "size" <$> fileInfo)) = true →
       size = default VUndef (flip get "size" <$> fileInfo)).
Proof.
  intros Hin. run_cases.
  all: set_unfold in Hin; destruct_or?; simplify_eq.
  all: do 6 eexists; split_and!;
    [reflexivity | reflexivity | reflexivity | reflexivity
    | simpl; intros; congruence].
Qed.

(** C3: when [getFileByHash] returns an existing record for the hash of
    the upload, the call never invokes [file.mv]; the storage root is
    left as it was, so a hash that had at most one physical file still
    has at most one. *)
Theorem saveFile_existing_never_writes file options w fi :
  getFileByHash cfg (sha256_hex (data file)) = Return (Some fi) →
  Forall (λ e, is_mv e = false) (events_of (saveFile file options w))
  ∧ disk (world_of (saveFile file options w)) = disk w
  ∧ ∀ h, (length (files_of_hash h (disk w)) ≤ 1)%nat →
         (length
            (files_of_hash h (disk (world_of (saveFile file options w))))
          ≤ 1)%nat.
Proof.
  intros Hfi. destruct (saveFile_existing_frame file options w fi Hfi)
    as [Hdisk Hev].
  split_and!.
  - eapply Forall_impl; [exact Hev|]. by intros e [? _].
  - exact Hdisk.
  - intros h. by rewrite Hdisk.
Qed.

(** C5: when the content is not novel ([getFileByHash] returned an
    existing record) and [createFile] throws, nothing is unlinked: the
    storage root, and with it the file at the computed path, is as it
    was before the call. *)
Theorem saveFile_existing_failure_keeps_file file options w fi r e :
  getFileByHash cfg (sha256_hex (data file)) = Return (Some fi) →
  EvCreateFile r ∈ events_of (saveFile file options w) →
  createFile cfg r = Throw e →
  Forall (λ e, is_unlink e = false) (events_of (saveFile file options w))
  ∧ ∀ entry, disk (world_of (saveFile file options w)) !! entry
             = disk w !! entry.
Proof.
  intros Hfi _ _. destruct (saveFile_existing_frame file options w fi Hfi)
    as [Hdisk Hev].
  split.
  - eapply Forall_impl; [exact Hev|]. by intros ? [_ ?].
  - intros entry. by rewrite Hdisk.
Qed.

(** C2: when [getFileByHash] returns an existing record whose [path] is
    the requested [filePath] and duplicates are not allowed, [saveFile]
    writes nothing to disk, does not call [createFile], and resolves
    with the existing record carrying [url = idToUrl(record.id)]. *)
Theorem saveFile_same_path_returns_existing file options w fi nm :
  decodeURI (name file) = Return nm →
  getFileByHash cfg (sha256_hex (data file)) = Return (Some fi) →
  get fi "path" = VStr (filePath_or_root options) →
  allowDuplicates cfg = false →
  outcome_of (saveFile file options w)
  = Return (Some (<["url" := VStr (idToUrl (mask cfg) (get fi "id"))]> fi))
  ∧ disk (world_of (saveFile file options w)) = disk w
  ∧ Forall (λ e, is_mv e = false ∧ is_createFile e = false
                 ∧ is_unlink e = false)
      (events_of (saveFile file options w)).
Proof.
  intros Hdec Hfi Hpath Hdup. run_unfold. simpl.
  rewrite Hdec, Hfi, Hpath, Hdup.
  rewrite bool_decide_eq_true_2 by done. simpl.
  run_cases.
  all: split_and!; [done | done | repeat constructor].
Qed.

(** C9: whatever [options.additionalData] holds under a key, the record
    passed to [createFile] holds under that key; in particular a key
    [id], [name], [extension], [hash], [size], [type], [last_modified]
    or [path] replaces the computed field. *)
Theorem saveFile_additionalData_overrides file options w r k v :
  additional options k = Some v →
  EvCreateFile r ∈ events_of (saveFile file options w) →
  r !! k = Some v.
Proof.
  intros Hk Hin.
  destruct (saveFile_createFile_inv file options w r Hin)
    as (i & w1 & evs & nm & fileInfo & size & _ & _ & _ & -> & _).
  by apply fileData_additional.
Qed.

(** C10: a falsy [options.id] (the number 0 or the empty string) is
    replaced by a fresh [uid()], and an empty [options.filePath] by the
    root marker ["/"]. *)
Theorem saveFile_falsy_id_and_filePath file o w :
  ((id o = Some (VNum 0) ∨ id o = Some (VStr "")) →
     id_or_uid cfg (Some o) w
     = Run (Return (uid cfg (uids w)))
         (World (disk w) (S (uids w)) (clock w)) [EvUid]
     ∧ head (events_of (saveFile file (Some o) w)) = Some EvUid
     ∧ ∀ r, EvCreateFile r ∈ events_of (saveFile file (Some o) w) →
            additional (Some o) "id" = None →
            r !! "id" = Some (uid cfg (uids w)))
  ∧ (filePath o = Some "" →
     filePath_or_root (Some o) = "/"
     ∧ ∀ r, EvCreateFile r ∈ events_of (saveFile file (Some o) w) →
            additional (Some o) "path" = None →
            r !! "path" = Some (VStr "/")).
Proof.
  split.
  - intros Hid.
    assert (id_or_uid cfg (Some o) w
            = Run (Return (uid cfg (uids w)))
                (World (disk w) (S (uids w)) (clock w)) [EvUid]) as Huid.
    { unfold id_or_uid. simpl. by destruct Hid as [-> | ->]. }
    split_and!; [exact Huid | |].
    + unfold_saveFile. cbv zeta.
      match goal with
      | |- context [try_catch (?m ≫= ?k) ?h w] =>
          destruct (try_catch_bind_events m k h w _ _ _ Huid) as [rest ->]
      end.
      done.
    + intros r Hin Hno.
      destruct (saveFile_createFile_inv file (Some o) w r Hin)
        as (i & w1 & evs & nm & fileInfo & size & Hi & _ & _ & -> & _).
      rewrite Huid in Hi. injection Hi as <- _ _.
      by apply fileData_id.
  - intros Hp.
    assert (filePath_or_root (Some o) = "/") as Hroot.
    { unfold filePath_or_root. simpl. by rewrite Hp. }
    split; [exact Hroot|]. intros r Hin Hno.
    destruct (saveFile_createFile_inv file (Some o) w r Hin)
      as (i & w1 & evs & nm & fileInfo & size & _ & _ & _ & -> & _).
    rewrite Hroot. by apply fileData_path.
Qed.

(** What the code does when the content is novel and [createFile]
    throws: the inner [catch] unlinks the file just moved in and ends
    without rethrowing, so the call resolves with [undefined]. *)
Lemma saveFile_novel_createFile_failure file options w v nm d1 b e :
  outcome_of (id_or_uid cfg options w) = Return v →
  decodeURI (name file) = Return nm →
  getFileByHash cfg (sha256_hex (data file)) = Return None →
  mv file (sha256_hex (data file) +:+ extension_of nm (data file)) (disk w)
  = (Return tt, d1) →
  d1 !! (sha256_hex (data file) +:+ extension_of nm (data file)) = Some b →
  createFile cfg
    (fileData v nm (extension_of nm (data file)) (sha256_hex (data file))
       (VNum (Z.of_nat (length b)))
       (dotExtensionToCategotry (extension_of nm (data file)))
       (clock w) (filePath_or_root options) options) = Throw e →
  outcome_of (saveFile file options w) = Return None
  ∧ disk (world_of (saveFile file options w))
    = delete (sha256_hex (data file) +:+ extension_of nm (data file)) d1.
Proof.
  intros Hid Hdec Hfi Hmv Hb Hcreate. run_cases.
  all: unfold js_or in *; simpl in *; simplify_eq.
  all: try done; try congruence.
  all: exfalso;
    match goal with
    | H : bool_decide _ = false |- _ =>
        apply bool_decide_eq_false in H; apply H; eauto
    end.
Qed.

(** X21: what lines 225-226 do when the existing record's [size] and [type]
    are truthy: the new record takes them from the existing one. *)
Lemma saveFile_existing_reuses_truthy file options w fi r :
  getFileByHash cfg (sha256_hex (data file)) = Return (Some fi) →
  truthy (get fi "size") = true →
  truthy (get fi "type") = true →
  EvCreateFile r ∈ events_of (saveFile file options w) →
  (additional options "size" = None → r !! "size" = Some (get fi "size"))
  ∧ (additional options "type" = None → r !! "type" = Some (get fi "type")).
Proof.
  intros Hfi Hsize Htype Hin.
  destruct (saveFile_createFile_inv file options w r Hin)
    as (i & w1 & evs & nm & fileInfo & size & _ & _ & Hfi' & -> & Hs).
  rewrite Hfi in Hfi'. injection Hfi' as <-. simpl in *.
  rewrite (Hs Hsize). unfold js_or. rewrite Htype.
  split; intros Hno; [by apply fileData_size | by apply fileData_type].
Qed.


(** X11: a name that [decodeURI] refuses: the call rejects with the wrapped
    [URIError] before the store is asked anything; nothing is written,
    though an id may already have been drawn from [uid]. *)
Theorem saveFile_malformed_name file options w e :
  decodeURI (name file) = Throw e →
  outcome_of (saveFile file options w) = Throw (new_Error e)
  ∧ disk (world_of (saveFile file options w)) = disk w
  ∧ Forall (λ ev, ev = EvUid ∨ ev = EvLog "Upload error" error)
      (events_of (saveFile file options w)).
Proof.
  intros Hdec. run_cases.
  all: split_and!; [done | done |].
  all: repeat (constructor; [first [by left | by right]|]); constructor.
Qed.

(** X12: a [getFileByHash] that throws: the call rejects with the wrapped
    error, and neither the disk nor [createFile] is touched. *)
Theorem saveFile_lookup_throws file options w nm e :
  decodeURI (name file) = Return nm →
  getFileByHash cfg (sha256_hex (data file)) = Throw e →
  outcome_of (saveFile file options w) = Throw (new_Error e)
  ∧ disk (world_of (saveFile file options w)) = disk w
  ∧ Forall (λ ev, is_mv ev = false ∧ is_createFile ev = false
                  ∧ is_unlink ev = false)
      (events_of (saveFile file options w)).
Proof.
  intros Hdec Hget. run_cases.
  all: split_and!; [done | done | repeat constructor].
Qed.

(** X13: a [file.mv] that rejects on novel content: the call rejects with the
    wrapped error, [createFile] is not called, and there is no cleanup:
    the storage root is left as [mv] left it. *)
Theorem saveFile_mv_throws file options w nm e d1 :
  decodeURI (name file) = Return nm →
  getFileByHash cfg (sha256_hex (data file)) = Return None →
  mv file (sha256_hex (data file) +:+ extension_of nm (data file)) (disk w)
  = (Throw e, d1) →
  outcome_of (saveFile file options w) = Throw (new_Error e)
  ∧ disk (world_of (saveFile file options w)) = d1
  ∧ Forall (λ ev, is_createFile ev = false ∧ is_unlink ev = false)
      (events_of (saveFile file options w)).
Proof.
  intros Hdec Hget Hmv. run_cases.
  all: merge_eqs.
  all: split_and!; [done | done | repeat constructor].
Qed.

(** X14: the first upload of some content, all going well: the call resolves
    with the record [createFile] returned, its [url] computed from the id
    of that returned record; the size recorded is the one [fs.statSync]
    reads from the file [mv] wrote; nothing is unlinked. *)
Theorem saveFile_novel_success file options w v nm d1 b rec :
  outcome_of (id_or_uid cfg options w) = Return v →
  decodeURI (name file) = Return nm →
  getFileByHash cfg (sha256_hex (data file)) = Return None →
  mv file (sha256_hex (data file) +:+ extension_of nm (data file)) (disk w)
  = (Return tt, d1) →
  d1 !! (sha256_hex (data file) +:+ extension_of nm (data file)) = Some b →
  createFile cfg
    (fileData v nm (extension_of nm (data file)) (sha256_hex (data file))
       (VNum (Z.of_nat (length b)))
       (dotExtensionToCategotry (extension_of nm (data file)))
       (clock w) (filePath_or_root options) options) = Return rec →
  outcome_of (saveFile file options w)
  = Return (Some (<["url" := VStr (idToUrl (mask cfg) (get rec "id"))]> rec))
  ∧ disk (world_of (saveFile file options w)) = d1
  ∧ Forall (λ ev, is_unlink ev = false) (events_of (saveFile file options w)).
Proof.
  intros Hid Hdec Hfi Hmv Hb Hcreate. run_cases.
  all: unfold js_or in *; merge_eqs.
  all: split_and!; [done | done | repeat constructor].
Qed.

(** X15: rollback: when [mv] adds the file of a novel upload to a storage root
    that did not have it and [createFile] then throws, the storage root
    ends up exactly as it was before the call. *)
Theorem saveFile_failed_create_restores_disk file options w v nm b e :
  outcome_of (id_or_uid cfg options w) = Return v →
  decodeURI (name file) = Return nm →
  getFileByHash cfg (sha256_hex (data file)) = Return None →
  disk w !! (sha256_hex (data file) +:+ extension_of nm (data file)) = None →
  mv file (sha256_hex (data file) +:+ extension_of nm (data file)) (disk w)
  = (Return tt,
     <[sha256_hex (data file) +:+ extension_of nm (data file) := b]> (disk w)) →
  createFile cfg
    (fileData v nm (extension_of nm (data file)) (sha256_hex (data file))
       (VNum (Z.of_nat (length b)))
       (dotExtensionToCategotry (extension_of nm (data file)))
       (clock w) (filePath_or_root options) options) = Throw e →
  disk (world_of (saveFile file options w)) = disk w.
Proof.
  intros Hid Hdec Hfi Hfresh Hmv Hcreate.
  destruct (saveFile_novel_createFile_failure file options w v nm _ b e
              Hid Hdec Hfi Hmv (lookup_insert_eq _ _ _) Hcreate) as [_ ->].
  by apply delete_insert_id.
Qed.

(** X16: one call asks the store at most once, writes at most once, creates at
    most one record, unlinks at most one file and draws at most one id. *)
Theorem saveFile_calls_at_most_once file options w :
  (length (List.filter is_mv (events_of (saveFile file options w))) ≤ 1)%nat
  ∧ (length (List.filter is_createFile (events_of (saveFile file options w)))
     ≤ 1)%nat
  ∧ (length (List.filter is_unlink (events_of (saveFile file options w)))
     ≤ 1)%nat
  ∧ (length (List.filter (λ ev, bool_decide (ev = EvUid))
               (events_of (saveFile file options w))) ≤ 1)%nat
  ∧ (length (List.filter
               (λ ev, match ev with EvGetFileByHash _ => true | _ => false end)
               (events_of (saveFile file options w))) ≤ 1)%nat.
Proof.
  run_cases.
  all: split_and!; simpl; lia.
Qed.

(** X17: content addressing: whatever a call moves in or unlinks is the entry
    [hash + extension] of the upload, and it does so only when the store
    had no record of the hash. *)
Theorem saveFile_touches_only_constPath file options w entry :
  EvMv entry ∈ events_of (saveFile file options w)
  ∨ EvUnlink entry ∈ events_of (saveFile file options w) →
  getFileByHash cfg (sha256_hex (data file)) = Return None
  ∧ ∃ nm, decodeURI (name file) = Return nm
          ∧ entry = sha256_hex (data file) +:+ extension_of nm (data file).
Proof.
  intros Hin. run_cases.
  all: set_unfold in Hin; destruct_or?; simplify_eq.
  all: split; [done | by eexists].
Qed.

(** X18: a truthy [options.id] is kept: [uid] is not called, and the record
    passed to [createFile] carries that id. *)
Theorem saveFile_truthy_id_kept file options w v :
  options ≫= id = Some v →
  truthy v = true →
  (EvUid ∉ events_of (saveFile file options w))
  ∧ uids (world_of (saveFile file options w)) = uids w
  ∧ ∀ r, EvCreateFile r ∈ events_of (saveFile file options w) →
         additional options "id" = None →
         r !! "id" = Some v.
Proof.
  intros Hv Ht.
  assert (id_or_uid cfg options w = Run (Return v) w []) as Hid.
  { unfold id_or_uid. by rewrite Hv, Ht. }
  split_and!.
  - run_cases. all: set_unfold; intros ?; destruct_or?; simplify_eq.
  - run_cases. all: done.
  - intros r Hin Hno.
    destruct (saveFile_createFile_inv file options w r Hin)
      as (i & w1 & evs & nm & fileInfo & size & Hi & _ & _ & -> & _).
    rewrite Hid in Hi. injection Hi as <- _ _.
    by apply fileData_id.
Qed.

(** X19: known content that goes to another logical path, or anywhere when
    duplicates are allowed: nothing is written to disk, and [createFile]
    is called with a record for the requested path that reuses the
    (truthy) size of the existing record; the call resolves with what
    [createFile] returns, decorated with its url. *)
Theorem saveFile_existing_creates_record file options w v nm fi :
  outcome_of (id_or_uid cfg options w) = Return v →
  decodeURI (name file) = Return nm →
  getFileByHash cfg (sha256_hex (data file)) = Return (Some fi) →
  truthy (get fi "size") = true →
  allowDuplicates cfg = true
  ∨ get fi "path" ≠ VStr (filePath_or_root options) →
  EvCreateFile
    (fileData v nm (extension_of nm (data file)) (sha256_hex (data file))
       (get fi "size")
       (js_or (get fi "type")
          (dotExtensionToCategotry (extension_of nm (data file))))
       (clock w) (filePath_or_root options) options)
  ∈ events_of (saveFile file options w)
  ∧ ∀ rec,
      createFile cfg
        (fileData v nm (extension_of nm (data file)) (sha256_hex (data file))
           (get fi "size")
           (js_or (get fi "type")
              (dotExtensionToCategotry (extension_of nm (data file))))
           (clock w) (filePath_or_root options) options) = Return rec →
      outcome_of (saveFile file options w)
      = Return (Some (<["url" := VStr (idToUrl (mask cfg) (get rec "id"))]>
                        rec)).
Proof.
  intros Hid Hdec Hfi Hsize Hwhy.
  assert (negb (bool_decide (VStr (filePath_or_root options) = get fi "path"))
          || allowDuplicates cfg = true) as Hcond.
  { destruct Hwhy as [-> | Hne]; [apply orb_true_r|].
    rewrite bool_decide_eq_false_2; [done | congruence]. }
  clear Hwhy. run_cases.
  all: merge_eqs; try congruence.
  all: split; [set_solver | intros; merge_eqs; congruence].
Qed.

(** X20: without [additionalData] the record passed to [createFile] holds the
    hash of the bytes, the decoded name and its extension, the effective
    logical path, and one and the same [Date.now()] as [last_modified]
    and [publishedAt]. *)
Theorem saveFile_record_core_fields file options w r :
  EvCreateFile r ∈ events_of (saveFile file options w) →
  options ≫= additionalData = None →
  r !! "hash" = Some (VStr (sha256_hex (data file)))
  ∧ r !! "path" = Some (VStr (filePath_or_root options))
  ∧ r !! "last_modified" = Some (VNum (clock w))
  ∧ r !! "publishedAt" = Some (VNum (clock w))
  ∧ ∃ nm, decodeURI (name file) = Return nm
          ∧ r !! "name" = Some (VStr nm)
          ∧ r !! "extension" = Some (VStr (extension_of nm (data file))).
Proof.
  intros Hin Hno.
  destruct (saveFile_createFile_inv file options w r Hin)
    as (i & w1 & evs & nm & fileInfo & size & _ & Hdec & _ & -> & _).
  assert (∀ k, additional options k = None) as Hk.
  { intros k. unfold additional. by rewrite Hno. }
  split_and!; try (by rewrite fileData_core).
  exists nm. split_and!; [done | by rewrite fileData_core..].
Qed.

(** *** [saveFile] followed by the operations on ids *)

(** X22: save, then resolve: when the store hands back under an id the record
    [saveFile] passed to [createFile] (with no [hash], [extension] or
    [name] in [additionalData]), [resolveFilePath] of that id gives the
    entry [hash + extension] of the upload and its decoded name. *)
Theorem resolveFilePath_after_saveFile file options w r nm
    (store : sfsConfig) (i : value) (w' : world) :
  EvCreateFile r ∈ events_of (saveFile file options w) →
  decodeURI (name file) = Return nm →
  additional options "hash" = None →
  additional options "extension" = None →
  additional options "name" = None →
  getFileById store i = Return r →
  resolveFilePath store i w'
  = Run (Return
           (Some {| Resolved.filePath :=
                      sha256_hex (data file) +:+ extension_of nm (data file);
                    Resolved.fileName := VStr nm |})) w' [].
Proof.
  intros Hin Hdec Hh Hx Hn Hget.
  destruct (saveFile_createFile_inv file options w r Hin)
    as (v & w1 & evs & nm' & fileInfo & size & _ & Hdec' & _ & -> & _).
  rewrite Hdec in Hdec'. injection Hdec' as <-.
  rewrite (resolveFilePath_found store i w' _
             (sha256_hex (data file) +:+ extension_of nm (data file)) Hget).
  - unfold get. by rewrite fileData_core.
  - unfold get. by rewrite !fileData_core.
Qed.

(** X23: save, then delete by id: after a first upload that went well,
    [deleteFileById] of the stored record unlinks the file just written;
    if [mv] had added it to a storage root that did not have it, the
    storage root is back to what it was before the upload. *)
Theorem deleteFileById_after_saveFile file options w v nm b rec
    (store : sfsConfig) (i : value) :
  outcome_of (id_or_uid cfg options w) = Return v →
  decodeURI (name file) = Return nm →
  getFileByHash cfg (sha256_hex (data file)) = Return None →
  disk w !! (sha256_hex (data file) +:+ extension_of nm (data file)) = None →
  mv file (sha256_hex (data file) +:+ extension_of nm (data file)) (disk w)
  = (Return tt,
     <[sha256_hex (data file) +:+ extension_of nm (data file) := b]> (disk w)) →
  additional options "hash" = None →
  additional options "extension" = None →
  createFile cfg
    (fileData v nm (extension_of nm (data file)) (sha256_hex (data file))
       (VNum (Z.of_nat (length b)))
       (dotExtensionToCategotry (extension_of nm (data file)))
       (clock w) (filePath_or_root options) options) = Return rec →
  getFileById store i
  = Return
      (fileData v nm (extension_of nm (data file)) (sha256_hex (data file))
         (VNum (Z.of_nat (length b)))
         (dotExtensionToCategotry (extension_of nm (data file)))
         (clock w) (filePath_or_root options) options) →
  outcome_of (deleteFileById store i (world_of (saveFile file options w)))
  = Return tt
  ∧ disk (world_of
            (deleteFileById store i (world_of (saveFile file options w))))
    = disk w.
Proof.
  intros Hid Hdec Hfi Hfresh Hmv Hh Hx Hcreate Hget.
  assert (disk (world_of (saveFile file options w))
          = <[sha256_hex (data file) +:+ extension_of nm (data file) := b]>
              (disk w)) as Hdisk.
  { pose proof (lookup_insert_eq (disk w)
                  (sha256_hex (data file) +:+ extension_of nm (data file)) b)
      as Hb.
    revert Hb Hmv Hcreate.
    generalize (<[sha256_hex (data file) +:+ extension_of nm (data file) := b]>
                  (disk w)) as d1.
    intros d1 Hb Hmv Hcreate. clear Hfresh Hget. run_cases.
    all: unfold js_or in *; merge_eqs; done. }
  rewrite (deleteFileById_found store i _ _
             (sha256_hex (data file) +:+ extension_of nm (data file)) Hget).
  - rewrite Hdisk, lookup_insert_eq. simpl.
    split; [done|]. by apply delete_insert_id.
  - unfold get. by rewrite !fileData_core.
Qed.

(** X24: known content saved under a name with another extension: the call
    creates a record for [hash + extension] without writing that file, so
    unless it was there before, [deleteFileById] of the new record fails
    with the file system's error. *)
Theorem deleteFileById_after_deduplicated_saveFile file options w fi r nm
    (store : sfsConfig) (i : value) :
  getFileByHash cfg (sha256_hex (data file)) = Return (Some fi) →
  decodeURI (name file) = Return nm →
  EvCreateFile r ∈ events_of (saveFile file options w) →
  additional options "hash" = None →
  additional options "extension" = None →
  disk w !! (sha256_hex (data file) +:+ extension_of nm (data file)) = None →
  getFileById store i = Return r →
  disk (world_of (saveFile file options w))
  !! (sha256_hex (data file) +:+ extension_of nm (data file)) = None
  ∧ outcome_of (deleteFileById store i (world_of (saveFile file options w)))
    = Throw (new_Error ENOENT).
Proof.
  intros Hfi Hdec Hin Hh Hx Habsent Hget.
  destruct (saveFile_existing_frame file options w fi Hfi) as [Hdisk _].
  destruct (saveFile_createFile_inv file options w r Hin)
    as (v & w1 & evs & nm' & fileInfo & size & _ & Hdec' & _ & -> & _).
  rewrite Hdec in Hdec'. injection Hdec' as <-.
  rewrite Hdisk. split; [done|].
  rewrite (deleteFileById_found store i _ _
             (sha256_hex (data file) +:+ extension_of nm (data file)) Hget).
  - by rewrite Hdisk, Habsent.
  - unfold get. by rewrite !fileData_core.
Qed.

End SaveFileFacts.

(** ** [deleteFileByHash] *)

Section DeleteFacts.

Variable cfg : sfsConfig.

(** The entries [readdirSync] lists are the files on disk. *)
Lemma readdir_entry (d : gmap string (list Byte.byte)) (f : string) :
  f ∈ (map_to_list d).*1 ↔ is_Some (d !! f).
Proof.
  rewrite list_elem_of_fmap. split.
  - intros [[f' b] [-> Hin]]. apply elem_of_map_to_list in Hin. by eexists.
  - intros [b Hb]. exists (f, b). split; [done|].
    by apply elem_of_map_to_list.
Qed.

Lemma find_entry_None (P : string → bool) (d : gmap string (list Byte.byte)) :
  (∀ f, is_Some (d !! f) → P f = false) →
  List.find P (map_to_list d).*1 = None.
Proof.
  intros Hno. destruct (List.find P _) as [f|] eqn:E; [|done].
  apply List.find_some in E as [Hin HP].
  apply list_elem_of_In, readdir_entry in Hin. by rewrite (Hno f Hin) in HP.
Qed.

Lemma find_entry_Some (P : string → bool) (d : gmap string (list Byte.byte))
    (f0 : string) :
  is_Some (d !! f0) → P f0 = true →
  ∃ f, List.find P (map_to_list d).*1 = Some f
       ∧ is_Some (d !! f) ∧ P f = true.
Proof.
  intros Hin HP. destruct (List.find P _) as [f|] eqn:E.
  - exists f. split; [done|]. apply List.find_some in E as [Hf ?].
    split; [|done]. by apply readdir_entry, list_elem_of_In.
  - apply readdir_entry, list_elem_of_In in Hin.
    by rewrite (List.find_none _ _ E f0 Hin) in HP.
Qed.

(** C7: in a storage root whose entries have non-empty names,
    [deleteFileByHash] with a hash that no entry has as the part of its
    name before the first dot fails with the NotFound error and unlinks
    nothing; when some entry matches, a matching entry is unlinked. *)
Theorem deleteFileByHash_spec (hash : string) (w : world) :
  disk w !! "" = None →
  ((∀ f, is_Some (disk w !! f) →
         head (JsString.split "." f) ≠ Some hash) →
     outcome_of (deleteFileByHash cfg hash w)
     = Throw (new_Error
                (JsError "Error"
                   ("File with hash " +:+ hash +:+ " not found in "
                    +:+ publicFolder cfg)))
     ∧ world_of (deleteFileByHash cfg hash w) = w
     ∧ events_of (deleteFileByHash cfg hash w) = [])
  ∧ ((∃ f, is_Some (disk w !! f)
           ∧ head (JsString.split "." f) = Some hash) →
     ∃ f, is_Some (disk w !! f)
          ∧ head (JsString.split "." f) = Some hash
          ∧ outcome_of (deleteFileByHash cfg hash w) = Return tt
          ∧ disk (world_of (deleteFileByHash cfg hash w))
            = delete f (disk w)
          ∧ events_of (deleteFileByHash cfg hash w) = [EvUnlink f]).
Proof.
  intros Hwf. split.
  - intros Hno.
    unfold deleteFileByHash, try_catch, mbind, M_bind, bind, readdirSync,
      throw. simpl.
    rewrite find_entry_None; [done|].
    intros f Hf. apply bool_decide_eq_false. by apply Hno.
  - intros (f0 & Hf0 & Hstem).
    destruct (find_entry_Some
                (λ f, bool_decide (head (JsString.split "." f) = Some hash))
                (disk w) f0 Hf0) as (f & Hfind & [b Hb] & HP).
    { by apply bool_decide_eq_true. }
    apply bool_decide_eq_true in HP.
    exists f. split; [by eexists|]. split; [done|].
    assert (truthy (VStr f) = true) as Ht.
    { simpl. apply negb_true_iff, String.eqb_neq. intros ->. congruence. }
    unfold deleteFileByHash, try_catch, mbind, M_bind, bind, readdirSync,
      unlinkSync, throw. simpl in *.
    rewrite Hfind, Ht, Hb. done.
Qed.

(** The two ways a run of [deleteFileByHash] goes. *)
Lemma deleteFileByHash_no_match (hash : string) (w : world) :
  (∀ f, is_Some (disk w !! f) → head (JsString.split "." f) ≠ Some hash) →
  deleteFileByHash cfg hash w
  = Run (Throw (new_Error
                  (JsError "Error"
                     ("File with hash " +:+ hash +:+ " not found in "
                      +:+ publicFolder cfg)))) w [].
Proof.
  intros Hno.
  unfold deleteFileByHash, try_catch, mbind, M_bind, bind, readdirSync, throw.
  simpl. rewrite find_entry_None; [done|].
  intros f Hf. apply bool_decide_eq_false. by apply Hno.
Qed.

Lemma deleteFileByHash_match (hash : string) (w : world) (f0 : string) :
  disk w !! "" = None →
  is_Some (disk w !! f0) →
  head (JsString.split "." f0) = Some hash →
  ∃ f, is_Some (disk w !! f)
       ∧ head (JsString.split "." f) = Some hash
       ∧ deleteFileByHash cfg hash w
         = Run (Return tt) (World (delete f (disk w)) (uids w) (clock w))
             [EvUnlink f].
Proof.
  intros Hwf Hf0 Hstem.
  destruct (find_entry_Some
              (λ f, bool_decide (head (JsString.split "." f) = Some hash))
              (disk w) f0 Hf0) as (f & Hfind & [b Hb] & HP).
  { by apply bool_decide_eq_true. }
  apply bool_decide_eq_true in HP.
  exists f. split; [by eexists|]. split; [done|].
  assert (truthy (VStr f) = true) as Ht.
  { simpl. apply negb_true_iff, String.eqb_neq. intros ->. congruence. }
  unfold deleteFileByHash, try_catch, mbind, M_bind, bind, readdirSync,
    unlinkSync, throw. simpl in *.
  by rewrite Hfind, Ht, Hb.
Qed.

(** X4: [deleteFileByHash] touches no entry but one named after the hash:
    every other file is as it was, whether the call resolves or rejects,
    and the id generator and the clock are left alone. *)
Theorem deleteFileByHash_keeps_other_files (hash : string) (w : world)
    (f : string) :
  head (JsString.split "." f) ≠ Some hash →
  disk (world_of (deleteFileByHash cfg hash w)) !! f = disk w !! f
  ∧ uids (world_of (deleteFileByHash cfg hash w)) = uids w
  ∧ Forall (λ e, ∃ g, e = EvUnlink g
                      ∧ head (JsString.split "." g) = Some hash)
      (events_of (deleteFileByHash cfg hash w)).
Proof.
  intros Hf.
  unfold deleteFileByHash, try_catch, mbind, M_bind, bind, readdirSync,
    unlinkSync, throw. simpl.
  destruct (List.find _ _) as [g|] eqn:Hfind; simpl; [|by split_and!].
  apply List.find_some in Hfind as [_ Hg]. apply bool_decide_eq_true in Hg.
  destruct (negb (String.eqb g "")); simpl; [|by split_and!].
  destruct (disk w !! g) eqn:Hdisk; simpl.
  - split_and!; [|done|by repeat econstructor].
    apply lookup_delete_ne. congruence.
  - split_and!; [done|done|by repeat econstructor].
Qed.

(** X5: a hash that contains a dot matches no file: given a whole file name,
    [abc123.pdf], [deleteFileByHash] fails with the NotFound error even
    when that very file is there. *)
Theorem deleteFileByHash_dotted_hash (hash : string) (w : world) :
  includes hash "." = true →
  deleteFileByHash cfg hash w
  = Run (Throw (new_Error
                  (JsError "Error"
                     ("File with hash " +:+ hash +:+ " not found in "
                      +:+ publicFolder cfg)))) w [].
Proof.
  intros Hdot. apply deleteFileByHash_no_match.
  intros f _ Hstem. apply split_head_no_dot in Hstem. congruence.
Qed.

(** X6: deleting twice: when exactly one file is named after the hash, the
    first call unlinks it and a second call fails with the NotFound error
    and changes nothing. *)
Theorem deleteFileByHash_twice (hash : string) (w : world) (f0 : string) :
  disk w !! "" = None →
  is_Some (disk w !! f0) →
  head (JsString.split "." f0) = Some hash →
  (∀ f, is_Some (disk w !! f) →
        head (JsString.split "." f) = Some hash → f = f0) →
  let w1 := world_of (deleteFileByHash cfg hash w) in
  outcome_of (deleteFileByHash cfg hash w) = Return tt
  ∧ disk w1 = delete f0 (disk w)
  ∧ deleteFileByHash cfg hash w1
    = Run (Throw (new_Error
                    (JsError "Error"
                       ("File with hash " +:+ hash +:+ " not found in "
                        +:+ publicFolder cfg)))) w1 [].
Proof.
  intros Hwf Hf0 Hstem Huniq w1. subst w1.
  destruct (deleteFileByHash_match hash w f0 Hwf Hf0 Hstem)
    as (f & Hf & Hfs & ->).
  rewrite (Huniq f Hf Hfs). simpl. split_and!; [done|done|].
  apply deleteFileByHash_no_match. simpl.
  intros g [b Hg] Hgs.
  destruct (decide (g = f0)) as [->|Hne].
  - by rewrite lookup_delete_eq in Hg.
  - rewrite lookup_delete_ne in Hg by done. apply Hne, Huniq; [by eexists|done].
Qed.

End DeleteFacts.

Lemma deleteFileByHash_keeps_other_files_witness :
  let cfg := Sample.config Sample.no_record Sample.createFile_ok false in
  let w := World {[ "abc123.pdf" := Sample.seven_bytes; "ffff.txt" := [] ]}
             0 0 in
  head (JsString.split "." "ffff.txt") ≠ Some "abc123"
  ∧ disk (world_of (deleteFileByHash cfg "abc123" w)) !! "ffff.txt"
    = disk w !! "ffff.txt".
Proof.
  intros cfg0 w.
  assert (head (JsString.split "." "ffff.txt") ≠ Some "abc123") as Hne.
  { vm_compute. discriminate. }
  split; [exact Hne|].
  exact (proj1 (deleteFileByHash_keeps_other_files cfg0 "abc123" w
                  "ffff.txt" Hne)).
Defined.

Lemma deleteFileByHash_dotted_hash_witness :
  let cfg := Sample.config Sample.no_record Sample.createFile_ok false in
  includes "abc123.pdf" "." = true
  ∧ is_Some (disk Sample.world1 !! "abc123.pdf")
  ∧ deleteFileByHash cfg "abc123.pdf" Sample.world1
    = Run (Throw (new_Error
                    (JsError "Error"
                       ("File with hash " +:+ "abc123.pdf" +:+ " not found in "
                        +:+ publicFolder cfg)))) Sample.world1 [].
Proof.
  intros cfg0. split; [reflexivity|]. split; [by eexists|].
  apply (deleteFileByHash_dotted_hash cfg0 "abc123.pdf" Sample.world1).
  reflexivity.
Defined.

Lemma deleteFileByHash_twice_witness :
  let cfg := Sample.config Sample.no_record Sample.createFile_ok false in
  let w1 := world_of (deleteFileByHash cfg "abc123" Sample.world1) in
  disk Sample.world1 !! "" = None
  ∧ outcome_of (deleteFileByHash cfg "abc123" Sample.world1) = Return tt
  ∧ disk w1 = delete "abc123.pdf" (disk Sample.world1)
  ∧ outcome_of (deleteFileByHash cfg "abc123" w1)
    = Throw (new_Error
               (JsError "Error"
                  "File with hash abc123 not found in ./uploads")).
Proof.
  intros cfg0 w1.
  assert (∀ f, is_Some (disk Sample.world1 !! f) →
               head (JsString.split "." f) = Some "abc123" →
               f = "abc123.pdf") as Huniq.
  { intros f [b Hb] _. simpl in Hb.
    apply lookup_singleton_Some in Hb as [<- _]. reflexivity. }
  destruct (deleteFileByHash_twice cfg0 "abc123" Sample.world1 "abc123.pdf"
              eq_refl (ex_intro _ Sample.seven_bytes eq_refl) eq_refl Huniq)
    as (H1 & H2 & H3).
  split; [reflexivity|]. split; [exact H1|]. split; [exact H2|].
  exact (f_equal outcome_of H3).
Defined.

(** ** The code run on concrete uploads *)

Section Runs.

Import Sample.

Local Abbreviation platform_theorem T :=
  (T Sample.decodeURI Sample.sha256_hex Sample.path_extname
     Sample.fileTypeFromBuffer Sample.dotExtensionToCategotry).

(** C1: the first upload of [report.pdf] with a [createFile] that
    throws.  The file moved in is unlinked, as the claim says, but the
    promise resolves with [undefined]: the inner [catch] (index.ts
    245-255) does not rethrow, against the function's own [@throws]
    note. *)
Theorem saveFile_createFile_failure_resolves_undefined :
  let r := Sample.saveFile (config no_record createFile_fails false)
             (upload "report.pdf" seven_bytes) None world0 in
  createFile_fails
    (fileData (VStr "id-0") "report.pdf" ".pdf" "abc123" (VNum 7)
       (VStr "document") 1700000000000 "/" None)
  = Throw (JsError "Error" "duplicate key")
  ∧ outcome_of r = Return None
  ∧ disk (world_of r) !! "abc123.pdf" = None
  ∧ events_of r
    = [EvUid; EvGetFileByHash "abc123"; EvLog "SFS: Saving file" success;
       EvMv "abc123.pdf";
       EvCreateFile
         (fileData (VStr "id-0") "report.pdf" ".pdf" "abc123" (VNum 7)
            (VStr "document") 1700000000000 "/" None);
       EvUnlink "abc123.pdf";
       EvLog "SFS: Cleaning up orphaned file after database error" info].
Proof. cbv zeta. split_and!; vm_compute; reflexivity. Qed.

(** C6: the empty file, already stored as [a.txt] at ["/"] with size 0,
    uploaded again as [b.md] at ["/docs"].  The record's size 0 is falsy,
    so line 225 falls through to [fs.statSync] on a path that was never
    written, and the call fails before [createFile]. *)
Theorem saveFile_zero_size_record_stats_disk :
  let r := Sample.saveFile (config (has_record empty_txt) createFile_ok false)
             (upload "b.md" []) options_docs world_empty_txt in
  get empty_txt "size" = VNum 0
  ∧ outcome_of r = Throw (new_Error ENOENT)
  ∧ Forall (λ e, is_createFile e = false) (events_of r).
Proof.
  cbv zeta. split_and!; vm_compute; [reflexivity.. | repeat constructor].
Qed.

(** The same second upload of a file whose record has a non-zero size
    goes through, with the size and type of the record. *)
Example saveFile_nonzero_size_record_reused :
  let r := Sample.saveFile (config (has_record report_pdf) createFile_ok false)
             (upload "copy.bin" seven_bytes) options_docs world1 in
  outcome_of r
  = Return (Some (<["url" := VStr "https://cdn.x/files/id-1"]>
                    (fileData (VStr "id-1") "copy.bin" ".bin" "abc123"
                       (VNum 7) (VStr "document") 1700000000000 "/docs"
                       options_docs))).
Proof. vm_compute. reflexivity. Qed.

(** The same bytes at the same logical path: the existing record comes
    back, decorated. *)
Lemma saveFile_same_path_returns_existing_witness :
  let cfg := config (has_record report_pdf) createFile_ok false in
  let file := upload "report.pdf" seven_bytes in
  Sample.decodeURI (name file) = Return "report.pdf"
  ∧ getFileByHash cfg (Sample.sha256_hex (data file))
    = Return (Some report_pdf)
  ∧ get report_pdf "path" = VStr (filePath_or_root None)
  ∧ allowDuplicates cfg = false
  ∧ outcome_of (Sample.saveFile cfg file None world1)
    = Return (Some (<["url" := VStr (idToUrl (mask cfg) (get report_pdf "id"))]>
                      report_pdf))
  ∧ disk (world_of (Sample.saveFile cfg file None world1)) = disk world1
  ∧ Forall (λ e, is_mv e = false ∧ is_createFile e = false
                 ∧ is_unlink e = false)
      (events_of (Sample.saveFile cfg file None world1)).
Proof.
  intros cfg file.
  split; [reflexivity|]. split; [reflexivity|].
  split; [vm_compute; reflexivity|]. split; [reflexivity|].
  apply (platform_theorem saveFile_same_path_returns_existing
           cfg file None world1 report_pdf "report.pdf");
    [reflexivity | reflexivity | vm_compute; reflexivity | reflexivity].
Defined.

Lemma saveFile_existing_never_writes_witness :
  let cfg := config (has_record report_pdf) createFile_ok false in
  let file := upload "copy.bin" seven_bytes in
  let r := Sample.saveFile cfg file options_docs world1 in
  getFileByHash cfg (Sample.sha256_hex (data file)) = Return (Some report_pdf)
  ∧ Forall (λ e, is_mv e = false) (events_of r)
  ∧ disk (world_of r) = disk world1
  ∧ ∀ h, (length (files_of_hash h (disk world1)) ≤ 1)%nat →
         (length (files_of_hash h (disk (world_of r))) ≤ 1)%nat.
Proof.
  intros cfg file r. split; [reflexivity|].
  apply (platform_theorem saveFile_existing_never_writes
           cfg file options_docs world1 report_pdf).
  reflexivity.
Defined.

Lemma saveFile_existing_failure_keeps_file_witness :
  let cfg := config (has_record report_pdf) createFile_fails false in
  let file := upload "copy.bin" seven_bytes in
  let r := Sample.saveFile cfg file options_docs world1 in
  let record := fileData (VStr "id-1") "copy.bin" ".bin" "abc123" (VNum 7)
                  (VStr "document") 1700000000000 "/docs" options_docs in
  getFileByHash cfg (Sample.sha256_hex (data file)) = Return (Some report_pdf)
  ∧ EvCreateFile record ∈ events_of r
  ∧ createFile cfg record = Throw (JsError "Error" "duplicate key")
  ∧ Forall (λ e, is_unlink e = false) (events_of r)
  ∧ ∀ entry, disk (world_of r) !! entry = disk world1 !! entry.
Proof.
  intros cfg file r record.
  assert (EvCreateFile record ∈ events_of r) as Hin.
  { refine (bool_decide_unpack _ _). vm_compute. exact I. }
  split; [reflexivity|]. split; [exact Hin|]. split; [reflexivity|].
  apply (platform_theorem saveFile_existing_failure_keeps_file
           cfg file options_docs world1 report_pdf record
           (JsError "Error" "duplicate key"));
    [reflexivity | exact Hin | reflexivity].
Defined.

Lemma saveFile_additionalData_overrides_witness :
  let cfg := config no_record createFile_ok false in
  let file := upload "report.pdf" seven_bytes in
  let r := Sample.saveFile cfg file options_size99 world0 in
  let record := fileData (VStr "id-0") "report.pdf" ".pdf" "abc123" (VNum 7)
                  (VStr "document") 1700000000000 "/" options_size99 in
  additional options_size99 "size" = Some (VNum 99)
  ∧ EvCreateFile record ∈ events_of r
  ∧ record !! "size" = Some (VNum 99).
Proof.
  intros cfg file r record.
  assert (EvCreateFile record ∈ events_of r) as Hin.
  { refine (bool_decide_unpack _ _). vm_compute. exact I. }
  split; [vm_compute; reflexivity|]. split; [exact Hin|].
  apply (platform_theorem saveFile_additionalData_overrides
           cfg file options_size99 world0 record "size" (VNum 99));
    [vm_compute; reflexivity | exact Hin].
Defined.

Lemma saveFile_falsy_id_and_filePath_witness :
  let cfg := config no_record createFile_ok false in
  let file := upload "report.pdf" seven_bytes in
  let r := Sample.saveFile cfg file (Some options_falsy) world0 in
  let record := fileData (VStr "id-0") "report.pdf" ".pdf" "abc123" (VNum 7)
                  (VStr "document") 1700000000000 "/"
                  (Some options_falsy) in
  (id options_falsy = Some (VNum 0) ∨ id options_falsy = Some (VStr ""))
  ∧ filePath options_falsy = Some ""
  ∧ EvCreateFile record ∈ events_of r
  ∧ head (events_of r) = Some EvUid
  ∧ record !! "id" = Some (uid cfg (uids world0))
  ∧ record !! "path" = Some (VStr "/").
Proof.
  intros cfg file r record.
  assert (EvCreateFile record ∈ events_of r) as Hin.
  { refine (bool_decide_unpack _ _). vm_compute. exact I. }
  destruct (platform_theorem saveFile_falsy_id_and_filePath
              cfg file options_falsy world0) as [Hid Hpath].
  destruct (Hid (or_introl eq_refl)) as (_ & Hhead & Hrid).
  destruct (Hpath eq_refl) as (_ & Hrpath).
  split; [left; reflexivity|]. split; [reflexivity|]. split; [exact Hin|].
  split; [exact Hhead|].
  split; [apply Hrid | apply Hrpath]; first [exact Hin | reflexivity].
Defined.

Lemma deleteFileByHash_spec_witness :
  let cfg := config no_record createFile_ok false in
  disk world1 !! "" = None
  ∧ (∀ f, is_Some (disk world1 !! f) →
          head (JsString.split "." f) ≠ Some "ffff")
  ∧ outcome_of (deleteFileByHash cfg "ffff" world1)
    = Throw (new_Error
               (JsError "Error" "File with hash ffff not found in ./uploads"))
  ∧ world_of (deleteFileByHash cfg "ffff" world1) = world1
  ∧ events_of (deleteFileByHash cfg "ffff" world1) = []
  ∧ ∃ f, is_Some (disk world1 !! f)
         ∧ head (JsString.split "." f) = Some "abc123"
         ∧ outcome_of (deleteFileByHash cfg "abc123" world1) = Return tt
         ∧ disk (world_of (deleteFileByHash cfg "abc123" world1))
           = delete f (disk world1)
         ∧ events_of (deleteFileByHash cfg "abc123" world1) = [EvUnlink f].
Proof.
  intros cfg.
  assert (∀ f, is_Some (disk world1 !! f) → f = "abc123.pdf") as Honly.
  { intros f [b Hb]. simpl in Hb.
    apply lookup_singleton_Some in Hb as [<- _]. reflexivity. }
  assert (∀ f, is_Some (disk world1 !! f) →
               head (JsString.split "." f) ≠ Some "ffff") as Hno.
  { intros f Hf. rewrite (Honly f Hf). vm_compute. discriminate. }
  split; [reflexivity|]. split; [exact Hno|].
  destruct (deleteFileByHash_spec cfg "ffff" world1 eq_refl) as [Hnone _].
  destruct (deleteFileByHash_spec cfg "abc123" world1 eq_refl) as [_ Hsome].
  destruct (Hnone Hno) as (Ho & Hw & He).
  split; [exact Ho|]. split; [exact Hw|]. split; [exact He|].
  apply Hsome. exists "abc123.pdf". split; [|reflexivity].
  exists seven_bytes. reflexivity.
Defined.

End Runs.

(** ** More runs: the further properties at concrete inputs *)

Section MoreRuns.

Import Sample.

Local Abbreviation platform_theorem T :=
  (T Sample.decodeURI Sample.sha256_hex Sample.path_extname
     Sample.fileTypeFromBuffer Sample.dotExtensionToCategotry).

Local Abbreviation report_record i opts :=
  (fileData i "report.pdf" ".pdf" "abc123" (VNum 7) (VStr "document")
     1700000000000 "/" opts).

Lemma idToUrl_same_url_witness :
  idToUrl "https://cdn.x/files" (VStr "a1")
  = idToUrl "https://cdn.x/files" (VStr "a1")
  ∧ "a1" = "a1".
Proof.
  destruct (idToUrl_same_url "https://cdn.x/files" (VStr "a1") (VStr "a1"))
    as (_ & Hinj & _).
  split; [reflexivity|]. apply Hinj. reflexivity.
Defined.

Lemma resolveFilePath_swallows_errors_witness :
  let cfg := config no_record createFile_ok false in
  getFileById cfg (VStr "nobody") = Throw (JsError "Error" "no such id")
  ∧ outcome_of (resolveFilePath cfg (VStr "nobody") world1) = Return None
  ∧ events_of (resolveFilePath cfg (VStr "nobody") world1)
    = [EvLog "Error: no such id" error].
Proof.
  intros cfg. split; [reflexivity|].
  destruct (resolveFilePath_swallows_errors cfg (VStr "nobody") world1)
    as (_ & _ & _ & Hthrow).
  destruct (Hthrow (JsError "Error" "no such id") eq_refl) as [Hout Hlog].
  split; [exact Hout | exact (Hlog eq_refl)].
Defined.


Lemma deleteFileById_not_found_witness :
  let r := deleteFileById Store.with_report (VStr "nobody") world1 in
  getFileById Store.with_report (VStr "nobody")
  = Throw (JsError "Error" "no such id")
  ∧ outcome_of r
    = Throw (new_Error (JsError "Error" "File with id nobody not found"))
  ∧ world_of r = world1
  ∧ Forall (λ ev, is_unlink ev = false) (events_of r).
Proof.
  intros r.
  assert (getFileById Store.with_report (VStr "nobody")
          = Throw (JsError "Error" "no such id")) as Hget.
  { vm_compute. reflexivity. }
  split; [exact Hget|].
  apply (deleteFileById_not_found Store.with_report (VStr "nobody") world1).
  left. eexists. exact Hget.
Defined.


Lemma saveFile_malformed_name_witness :
  let cfg := config no_record createFile_ok false in
  let file := upload "100%.pdf" seven_bytes in
  let r := Faulty.saveFile cfg file None world0 in
  Faulty.decodeURI (name file) = Throw (JsError "URIError" "URI malformed")
  ∧ outcome_of r = Throw (new_Error (JsError "URIError" "URI malformed"))
  ∧ disk (world_of r) = disk world0
  ∧ Forall (λ ev, ev = EvUid ∨ ev = EvLog "Upload error" error) (events_of r).
Proof.
  intros cfg file r. split; [reflexivity|].
  apply (saveFile_malformed_name Faulty.decodeURI Sample.sha256_hex
           Sample.path_extname Sample.fileTypeFromBuffer
           Sample.dotExtensionToCategotry cfg file None world0).
  reflexivity.
Defined.

Lemma saveFile_lookup_throws_witness :
  let cfg := config Faulty.lookup_throws createFile_ok false in
  let file := upload "report.pdf" seven_bytes in
  let r := Sample.saveFile cfg file None world0 in
  getFileByHash cfg (Sample.sha256_hex (data file))
  = Throw (JsError "Error" "store unavailable")
  ∧ outcome_of r = Throw (new_Error (JsError "Error" "store unavailable"))
  ∧ disk (world_of r) = disk world0
  ∧ Forall (λ ev, is_mv ev = false ∧ is_createFile ev = false
                  ∧ is_unlink ev = false) (events_of r).
Proof.
  intros cfg file r. split; [reflexivity|].
  apply (platform_theorem saveFile_lookup_throws cfg file None world0
           "report.pdf"); reflexivity.
Defined.

Lemma saveFile_mv_throws_witness :
  let cfg := config no_record createFile_ok false in
  let file := Faulty.upload "report.pdf" seven_bytes in
  let r := Sample.saveFile cfg file None world0 in
  mv file "abc123.pdf" (disk world0)
  = (Throw (JsError "Error" "EACCES: permission denied"), disk world0)
  ∧ outcome_of r
    = Throw (new_Error (JsError "Error" "EACCES: permission denied"))
  ∧ disk (world_of r) = disk world0
  ∧ Forall (λ ev, is_createFile ev = false ∧ is_unlink ev = false)
      (events_of r).
Proof.
  intros cfg file r. split; [reflexivity|].
  apply (platform_theorem saveFile_mv_throws cfg file None world0
           "report.pdf"); reflexivity.
Defined.

Lemma saveFile_novel_success_witness :
  let cfg := config no_record createFile_ok false in
  let file := upload "report.pdf" seven_bytes in
  let r := Sample.saveFile cfg file None world0 in
  getFileByHash cfg (Sample.sha256_hex (data file)) = Return None
  ∧ outcome_of r
    = Return (Some (<["url" := VStr (idToUrl (mask cfg)
                                       (get (report_record (VStr "id-0") None)
                                          "id"))]>
                      (report_record (VStr "id-0") None)))
  ∧ disk (world_of r) = <["abc123.pdf" := seven_bytes]> (disk world0)
  ∧ Forall (λ ev, is_unlink ev = false) (events_of r).
Proof.
  intros cfg file r. split; [reflexivity|].
  apply (platform_theorem saveFile_novel_success cfg file None world0
           (VStr "id-0") "report.pdf" _ seven_bytes);
    first [reflexivity | vm_compute; reflexivity].
Defined.

Lemma saveFile_failed_create_restores_disk_witness :
  let cfg := config no_record createFile_fails false in
  let file := upload "report.pdf" seven_bytes in
  disk world0 !! "abc123.pdf" = None
  ∧ createFile cfg (report_record (VStr "id-0") None)
    = Throw (JsError "Error" "duplicate key")
  ∧ disk (world_of (Sample.saveFile cfg file None world0)) = disk world0.
Proof.
  intros cfg file. split; [reflexivity|]. split; [reflexivity|].
  apply (platform_theorem saveFile_failed_create_restores_disk cfg file None
           world0 (VStr "id-0") "report.pdf" seven_bytes
           (JsError "Error" "duplicate key"));
    first [reflexivity | vm_compute; reflexivity].
Defined.

Lemma saveFile_touches_only_constPath_witness :
  let cfg := config no_record createFile_fails false in
  let file := upload "report.pdf" seven_bytes in
  let r := Sample.saveFile cfg file None world0 in
  EvMv "abc123.pdf" ∈ events_of r
  ∧ EvUnlink "abc123.pdf" ∈ events_of r
  ∧ getFileByHash cfg (Sample.sha256_hex (data file)) = Return None
  ∧ ∃ nm, Sample.decodeURI (name file) = Return nm
          ∧ "abc123.pdf"
            = Sample.sha256_hex (data file)
              +:+ extension_of Sample.path_extname Sample.fileTypeFromBuffer
                    nm (data file).
Proof.
  intros cfg file r.
  assert (EvMv "abc123.pdf" ∈ events_of r) as Hmv.
  { refine (bool_decide_unpack _ _). vm_compute. exact I. }
  assert (EvUnlink "abc123.pdf" ∈ events_of r) as Hunlink.
  { refine (bool_decide_unpack _ _). vm_compute. exact I. }
  split; [exact Hmv|]. split; [exact Hunlink|].
  apply (platform_theorem saveFile_touches_only_constPath cfg file None
           world0 "abc123.pdf").
  left. exact Hmv.
Defined.

Lemma saveFile_truthy_id_kept_witness :
  let cfg := config no_record createFile_ok false in
  let file := upload "report.pdf" seven_bytes in
  let options := Some {| filePath := None; id := Some (VNum 7);
                         additionalData := None |} in
  let r := Sample.saveFile cfg file options world0 in
  truthy (VNum 7) = true
  ∧ EvCreateFile (report_record (VNum 7) options) ∈ events_of r
  ∧ (EvUid ∉ events_of r)
  ∧ uids (world_of r) = uids world0
  ∧ report_record (VNum 7) options !! "id" = Some (VNum 7).
Proof.
  intros cfg file options r.
  assert (EvCreateFile (report_record (VNum 7) options) ∈ events_of r) as Hin.
  { refine (bool_decide_unpack _ _). vm_compute. exact I. }
  destruct (platform_theorem saveFile_truthy_id_kept cfg file options world0
              (VNum 7) eq_refl eq_refl) as (Hno & Huids & Hid).
  split; [reflexivity|]. split; [exact Hin|]. split; [exact Hno|].
  split; [exact Huids|]. apply Hid; [exact Hin | reflexivity].
Defined.

Lemma saveFile_existing_creates_record_witness :
  let cfg := config (has_record report_pdf) createFile_ok false in
  let file := upload "copy.bin" seven_bytes in
  let record := fileData (VStr "id-1") "copy.bin" ".bin" "abc123" (VNum 7)
                  (VStr "document") 1700000000000 "/docs" options_docs in
  let r := Sample.saveFile cfg file options_docs world1 in
  truthy (get report_pdf "size") = true
  ∧ get report_pdf "path" ≠ VStr (filePath_or_root options_docs)
  ∧ EvCreateFile record ∈ events_of r
  ∧ outcome_of r
    = Return (Some (<["url" := VStr (idToUrl (mask cfg) (get record "id"))]>
                      record)).
Proof.
  intros cfg file record r.
  assert (get report_pdf "path" ≠ VStr (filePath_or_root options_docs))
    as Hpath.
  { vm_compute. discriminate. }
  destruct (platform_theorem saveFile_existing_creates_record cfg file
              options_docs world1 (VStr "id-1") "copy.bin" report_pdf
              eq_refl eq_refl eq_refl eq_refl (or_intror Hpath))
    as [Hin Hout].
  split; [reflexivity|]. split; [exact Hpath|]. split; [exact Hin|].
  apply Hout. reflexivity.
Defined.

Lemma saveFile_record_core_fields_witness :
  let cfg := config no_record createFile_ok false in
  let file := upload "report.pdf" seven_bytes in
  let r := Sample.saveFile cfg file None world0 in
  let record := report_record (VStr "id-0") None in
  EvCreateFile record ∈ events_of r
  ∧ record !! "hash" = Some (VStr "abc123")
  ∧ record !! "path" = Some (VStr "/")
  ∧ record !! "last_modified" = record !! "publishedAt".
Proof.
  intros cfg file r record.
  assert (EvCreateFile record ∈ events_of r) as Hin.
  { refine (bool_decide_unpack _ _). vm_compute. exact I. }
  destruct (platform_theorem saveFile_record_core_fields cfg file None world0
              record Hin eq_refl) as (Hh & Hp & Hl & Hpub & _).
  split; [exact Hin|]. split; [exact Hh|]. split; [exact Hp|].
  rewrite Hl, Hpub. reflexivity.
Defined.

Lemma saveFile_existing_reuses_truthy_witness :
  let cfg := config (has_record report_pdf) createFile_ok false in
  let file := upload "copy.bin" seven_bytes in
  let record := fileData (VStr "id-1") "copy.bin" ".bin" "abc123" (VNum 7)
                  (VStr "document") 1700000000000 "/docs" options_docs in
  truthy (get report_pdf "size") = true
  ∧ truthy (get report_pdf "type") = true
  ∧ EvCreateFile record
    ∈ events_of (Sample.saveFile cfg file options_docs world1)
  ∧ record !! "size" = Some (get report_pdf "size")
  ∧ record !! "type" = Some (get report_pdf "type").
Proof.
  intros cfg file record.
  assert (EvCreateFile record
          ∈ events_of (Sample.saveFile cfg file options_docs world1)) as Hin.
  { refine (bool_decide_unpack _ _). vm_compute. exact I. }
  destruct (platform_theorem saveFile_existing_reuses_truthy cfg file
              options_docs world1 report_pdf record eq_refl eq_refl eq_refl
              Hin) as [Hsize Htype].
  split; [reflexivity|]. split; [reflexivity|]. split; [exact Hin|].
  split; [exact (Hsize eq_refl) | exact (Htype eq_refl)].
Defined.

Lemma resolveFilePath_after_saveFile_witness :
  let cfg := config no_record createFile_ok false in
  let file := upload "report.pdf" seven_bytes in
  let record := report_record (VStr "id-0") None in
  let store := Store.config [record] in
  EvCreateFile record ∈ events_of (Sample.saveFile cfg file None world0)
  ∧ getFileById store (VStr "id-0") = Return record
  ∧ resolveFilePath store (VStr "id-0") world1
    = Run (Return (Some {| Resolved.filePath := "abc123.pdf";
                           Resolved.fileName := VStr "report.pdf" |}))
        world1 [].
Proof.
  intros cfg file record store.
  assert (EvCreateFile record
          ∈ events_of (Sample.saveFile cfg file None world0)) as Hin.
  { refine (bool_decide_unpack _ _). vm_compute. exact I. }
  assert (getFileById store (VStr "id-0") = Return record) as Hget.
  { vm_compute. reflexivity. }
  split; [exact Hin|]. split; [exact Hget|].
  exact (platform_theorem resolveFilePath_after_saveFile cfg file None world0
           record "report.pdf" store (VStr "id-0") world1 Hin eq_refl eq_refl
           eq_refl eq_refl Hget).
Defined.

Lemma deleteFileById_after_saveFile_witness :
  let cfg := config no_record createFile_ok false in
  let file := upload "report.pdf" seven_bytes in
  let record := report_record (VStr "id-0") None in
  let store := Store.config [record] in
  let w1 := world_of (Sample.saveFile cfg file None world0) in
  disk world0 !! "abc123.pdf" = None
  ∧ getFileById store (VStr "id-0") = Return record
  ∧ outcome_of (deleteFileById store (VStr "id-0") w1) = Return tt
  ∧ disk (world_of (deleteFileById store (VStr "id-0") w1)) = disk world0.
Proof.
  intros cfg file record store w1.
  assert (getFileById store (VStr "id-0") = Return record) as Hget.
  { vm_compute. reflexivity. }
  split; [reflexivity|]. split; [exact Hget|].
  apply (platform_theorem deleteFileById_after_saveFile cfg file None world0
           (VStr "id-0") "report.pdf" seven_bytes record store (VStr "id-0"));
    first [exact Hget | reflexivity | vm_compute; reflexivity].
Defined.

Lemma deleteFileById_after_deduplicated_saveFile_witness :
  let cfg := config (has_record report_pdf) createFile_ok false in
  let file := upload "copy.bin" seven_bytes in
  let record := fileData (VStr "id-1") "copy.bin" ".bin" "abc123" (VNum 7)
                  (VStr "document") 1700000000000 "/docs" options_docs in
  let store := Store.config [record] in
  let w1 := world_of (Sample.saveFile cfg file options_docs world1) in
  EvCreateFile record
  ∈ events_of (Sample.saveFile cfg file options_docs world1)
  ∧ disk world1 !! "abc123.bin" = None
  ∧ getFileById store (VStr "id-1") = Return record
  ∧ disk w1 !! "abc123.bin" = None
  ∧ outcome_of (deleteFileById store (VStr "id-1") w1)
    = Throw (new_Error ENOENT).
Proof.
  intros cfg file record store w1.
  assert (EvCreateFile record
          ∈ events_of (Sample.saveFile cfg file options_docs world1)) as Hin.
  { refine (bool_decide_unpack _ _). vm_compute. exact I. }
  assert (getFileById store (VStr "id-1") = Return record) as Hget.
  { vm_compute. reflexivity. }
  split; [exact Hin|]. split; [reflexivity|]. split; [exact Hget|].
  exact (platform_theorem deleteFileById_after_deduplicated_saveFile cfg file
           options_docs world1 report_pdf record "copy.bin" store
           (VStr "id-1") eq_refl eq_refl Hin eq_refl eq_refl eq_refl Hget).
Defined.

End MoreRuns.
